(** * Attendance autograder ([app.py]): a shallow embedding

    The program pulls survey responses from a forms provider into a pandas
    frame, renames the answer columns to question titles, keeps the
    responses of one lecture hour, keeps those whose "concept of the day"
    answer is close to the key phrase, converts the rating columns to
    numbers, reports their means, lists the students who need help and
    posts one grade per enrolled student.

    Conventions of the embedding:
    - a Python [str] is a [string] of characters below 128 (ASCII text);
    - a frame cell is text, a number or the missing value [NaN]; a
      number is a binary64 value, written as the rational it is ([Q]);
      the float arithmetic of the report is a parameter;
    - a frame is row-major: column labels, one dtype per column and the
      rows; the row index is not stored, no embedded step reads it back;
    - a Python exception is a [Raise] result. *)

From Stdlib Require Import ZArith QArith Qround List String Ascii Bool Lia.
From Stdlib Require Import Permutation Sorted.
From stdpp Require Import gmap strings.
Import ListNotations.
Local Open Scope string_scope.
Local Open Scope list_scope.

(** ** Exceptions *)

Inductive exn : Type :=
| KeyError | IndexError | ValueError | AttributeError | TypeError
| ProviderError.

Inductive result (A : Type) : Type :=
| Ok (a : A)
| Raise (e : exn).
Arguments Ok {A} a.
Arguments Raise {A} e.

Definition rbind {A B} (m : result A) (k : A -> result B) : result B :=
  match m with
  | Ok a => k a
  | Raise e => Raise e
  end.

Notation "'do' x <- m ; k" := (rbind m (fun x => k))
  (at level 10, x name, m at level 100, k at level 200).
Notation "'do' ' p <- m ; k" := (rbind m (fun x => match x with p => k end))
  (at level 10, p pattern, m at level 100, k at level 200).

Fixpoint mapM {A B} (f : A -> result B) (l : list A) : result (list B) :=
  match l with
  | [] => Ok []
  | x :: l' => do y <- f x; do ys <- mapM f l'; Ok (y :: ys)
  end.

Definition of_option {A} (e : exn) (o : option A) : result A :=
  match o with
  | Some a => Ok a
  | None => Raise e
  end.

(** ** The Python string methods the program calls *)

Module PyStr.

(** [s.endswith(suffix)] *)
Fixpoint endswith (s suffix : string) : bool :=
  String.eqb s suffix
  || match s with
     | EmptyString => false
     | String _ s' => endswith s' suffix
     end.

(** [sub in s] *)
Fixpoint contains (sub s : string) : bool :=
  String.prefix sub s
  || match s with
     | EmptyString => false
     | String _ s' => contains sub s'
     end.

Definition underscore : ascii := "_"%char.

(** The tail [[^_]*_] of the pattern, anchored at the head of [s]: the
    text up to and including the next underscore. *)
Fixpoint upto_underscore (s : string) : option string :=
  match s with
  | EmptyString => None
  | String c s' =>
      if Ascii.eqb c underscore then Some (String c EmptyString)
      else option_map (String c) (upto_underscore s')
  end.

(** [re.findall(r"_[^_]*_", s)[0]]: the leftmost match, [None] when
    [findall] returns the empty list. *)
Fixpoint re_first (s : string) : option string :=
  match s with
  | EmptyString => None
  | String c s' =>
      if Ascii.eqb c underscore then
        match upto_underscore s' with
        | Some m => Some (String c m)
        | None => re_first s'
        end
      else re_first s'
  end.

(** [s.replace("_", "")] *)
Fixpoint remove_underscores (s : string) : string :=
  match s with
  | EmptyString => EmptyString
  | String c s' =>
      if Ascii.eqb c underscore then remove_underscores s'
      else String c (remove_underscores s')
  end.

(** Whitespace of [str.strip()] below 128: tab to carriage return, the
    four separators 28..31 and the blank. *)
Definition is_space (c : ascii) : bool :=
  let n := nat_of_ascii c in
  ((9 <=? n) && (n <=? 13) || (28 <=? n) && (n <=? 32))%nat.

Fixpoint lstrip (s : string) : string :=
  match s with
  | EmptyString => EmptyString
  | String c s' => if is_space c then lstrip s' else s
  end.

Fixpoint rstrip (s : string) : string :=
  match s with
  | EmptyString => EmptyString
  | String c s' =>
      match rstrip s' with
      | EmptyString => if is_space c then EmptyString else String c EmptyString
      | r => String c r
      end
  end.

(** [s.strip()] *)
Definition strip (s : string) : string := rstrip (lstrip s).

Definition is_upper (c : ascii) : bool :=
  let n := nat_of_ascii c in ((65 <=? n) && (n <=? 90))%nat.

Definition lower_char (c : ascii) : ascii :=
  if is_upper c then ascii_of_nat (nat_of_ascii c + 32) else c.

(** [s.lower()] *)
Fixpoint lower (s : string) : string :=
  match s with
  | EmptyString => EmptyString
  | String c s' => String (lower_char c) (lower s')
  end.

End PyStr.

(** ** Frames *)

Inductive cell : Type :=
| Str (s : string)
| Num (q : Q)
| NaN.

(** What [select_dtypes("number")] tells apart. *)
Inductive dtype : Type := dt_object | dt_number.

Record DataFrame : Type := mkFrame {
  columns : list string;
  dtypes : list dtype;
  rows : list (list cell)
}.

Module Frame.

(** Keep the positions of [xs] whose flag is set. *)
Fixpoint select {A} (keep : list bool) (xs : list A) : list A :=
  match keep, xs with
  | b :: keep', x :: xs' =>
      if b then x :: select keep' xs' else select keep' xs'
  | _, _ => []
  end.

Definition mem (x : string) (l : list string) : bool :=
  existsb (String.eqb x) l.

(** [df.drop(columns=labels)]: every column carrying one of the labels
    goes.  Both calls of the program pass labels taken from the frame's
    own columns, so the [KeyError] of an unknown label cannot occur. *)
Definition drop (labels : list string) (df : DataFrame) : DataFrame :=
  let keep := map (fun c => negb (mem c labels)) (columns df) in
  {| columns := select keep (columns df);
     dtypes := select keep (dtypes df);
     rows := map (select keep) (rows df) |}.

(** [df.columns = labels]: a [ValueError] unless there is one label per
    column. *)
Definition set_columns (labels : list string) (df : DataFrame)
  : result DataFrame :=
  if (length labels =? length (columns df))%nat
  then Ok {| columns := labels; dtypes := dtypes df; rows := rows df |}
  else Raise ValueError.

(** Position of the first column labelled [c]. *)
Fixpoint position (c : string) (cols : list string) : option nat :=
  match cols with
  | [] => None
  | x :: cols' =>
      if String.eqb x c then Some 0%nat
      else option_map S (position c cols')
  end.

(** [row[c]]: the cell under the label [c], the first one should the
    label occur twice (titles are distinct within one schema). *)
Definition get (cols : list string) (c : string) (r : list cell)
  : option cell :=
  match position c cols with
  | Some i => nth_error r i
  | None => None
  end.

End Frame.

(** ** Schema normalizer: [AttendanceForm] *)

Module AttendanceForm.

(** The identifier embedded in a flattened answer key:
    [re.findall(r"_[^_]*_", x)[0].replace("_", "")]. *)
Definition extract_id (x : string) : result string :=
  do m <- of_option IndexError (PyStr.re_first x);
  Ok (PyStr.remove_underscores m).

Definition clean_column_index (df : DataFrame)
  : result (DataFrame * list string) :=
  let df :=
    Frame.drop
      (List.filter (fun x => PyStr.endswith x "questionId") (columns df)) df in
  let col_keys := List.filter (PyStr.contains "_") (columns df) in
  do col_keys <- mapM extract_id col_keys;
  do df <- Frame.set_columns (firstn 4 (columns df) ++ col_keys) df;
  Ok (df, col_keys).

Definition has_key (q_titles : gmap string string) (k : string) : bool :=
  match q_titles !! k with
  | Some _ => true
  | None => false
  end.

(** [get_attendance], from the frame of flattened responses and the
    identifier-to-title dictionary of [get_question_ids]. *)
Definition get_attendance (responses : DataFrame)
           (q_titles : gmap string string) : result DataFrame :=
  do '(df, keys) <- clean_column_index responses;
  let dropcols := List.filter (fun k => negb (has_key q_titles k)) keys in
  let df := Frame.drop dropcols df in
  Frame.set_columns
    (map (fun x => match q_titles !! x with
                   | Some title => title
                   | None => x
                   end) (columns df))
    df.

End AttendanceForm.

(** ** Time stamps

    A time stamp is a number of nanoseconds since the epoch, in the
    provider's zone (UTC), as in a pandas [DatetimeIndex]. *)

Module Iso8601.

Definition digit (c : ascii) : option Z :=
  let n := Z.of_nat (nat_of_ascii c) in
  if (48 <=? n)%Z && (n <=? 57)%Z then Some (n - 48)%Z else None.

(** Exactly [n] decimal digits. *)
Fixpoint number (n : nat) (acc : Z) (s : string) : option (Z * string) :=
  match n with
  | O => Some (acc, s)
  | S n' =>
      match s with
      | String c s' =>
          match digit c with
          | Some d => number n' (10 * acc + d)%Z s'
          | None => None
          end
      | EmptyString => None
      end
  end.

Definition expect (c : ascii) (s : string) : option string :=
  match s with
  | String c' s' => if Ascii.eqb c c' then Some s' else None
  | EmptyString => None
  end.

(** Up to [n] further digits of a fraction of a second, [unit] being
    the weight in nanoseconds of the next digit. *)
Fixpoint fraction (n : nat) (unit acc : Z) (s : string) : Z * string :=
  match n, s with
  | S n', String c s' =>
      match digit c with
      | Some d => fraction n' (unit / 10)%Z (acc + d * unit)%Z s'
      | None => (acc, s)
      end
  | _, _ => (acc, s)
  end.

Definition leap (y : Z) : bool :=
  ((y mod 4 =? 0) && (negb (y mod 100 =? 0) || (y mod 400 =? 0)))%Z.

Definition days_in_month (y m : Z) : Z :=
  if (m =? 2)%Z then (if leap y then 29 else 28)%Z
  else if ((m =? 4) || (m =? 6) || (m =? 9) || (m =? 11))%Z then 30%Z
  else 31%Z.

(** Days from 1970-01-01 to the given civil date. *)
Definition days_from_civil (y m d : Z) : Z :=
  let y' := (if m <=? 2 then y - 1 else y)%Z in
  let era := (y' / 400)%Z in
  let yoe := (y' - era * 400)%Z in
  let mp := ((m + 9) mod 12)%Z in
  let doy := ((153 * mp + 2) / 5 + d - 1)%Z in
  let doe := (yoe * 365 + yoe / 4 - yoe / 100 + doy)%Z in
  (era * 146097 + doe - 719468)%Z.

Definition second_ns : Z := 1000000000.

(** [YYYY-MM-DDThh:mm:ss], an optional fraction of up to nine digits and
    an optional [Z]; a text without zone is read in UTC. *)
Definition parse (s : string) : option Z :=
  '(y, s) ← number 4 0 s;
  s ← expect "-" s;
  '(m, s) ← number 2 0 s;
  s ← expect "-" s;
  '(d, s) ← number 2 0 s;
  s ← expect "T" s;
  '(hh, s) ← number 2 0 s;
  s ← expect ":" s;
  '(mm, s) ← number 2 0 s;
  s ← expect ":" s;
  '(ss, s) ← number 2 0 s;
  let '(ns, s) :=
    match s with
    | String "." (String c s') =>
        match digit c with
        | Some _ => fraction 9 100000000 0 (String c s')
        | None => (0%Z, s)
        end
    | _ => (0%Z, s)
    end in
  let s := match expect "Z" s with Some s' => s' | None => s end in
  if String.eqb s ""
     && (1 <=? m)%Z && (m <=? 12)%Z && (1 <=? d)%Z
     && (d <=? days_in_month y m)%Z
     && (hh <? 24)%Z && (mm <? 60)%Z && (ss <? 60)%Z
  then Some ((((days_from_civil y m d * 24 + hh) * 60 + mm) * 60 + ss)
             * second_ns + ns)%Z
  else None.

End Iso8601.

(** ** Time window filter: [filter_by_day] *)

Module Day.
Section WithParser.

(** The date parser of pandas, a parameter of the embedding: the time
    stamp of a text, [None] when the text cannot be parsed. *)
Variable to_datetime : string -> option Z.

(** One entry of [pd.DatetimeIndex(df["lastSubmittedTime"])]: [None] is
    [NaT].  A text that cannot be parsed raises; a number counts
    nanoseconds. *)
Definition stamp_of_cell (c : cell) : result (option Z) :=
  match c with
  | Str s =>
      match to_datetime s with
      | Some t => Ok (Some t)
      | None => Raise ValueError
      end
  | Num q => Ok (Some (Qfloor q))
  | NaN => Ok None
  end.

Definition DatetimeIndex (df : DataFrame) : result (list (option Z)) :=
  do i <- of_option KeyError
            (Frame.position "lastSubmittedTime" (columns df));
  mapM (fun r => do c <- of_option KeyError (nth_error r i);
                 stamp_of_cell c)
       (rows df).

(** Order of the index labels, [NaT] last. *)
Definition stamp_le (a b : option Z) : bool :=
  match a, b with
  | Some x, Some y => (x <=? y)%Z
  | _, None => true
  | None, Some _ => false
  end.

Fixpoint insert_row (x : option Z * list cell)
         (l : list (option Z * list cell)) : list (option Z * list cell) :=
  match l with
  | [] => [x]
  | y :: l' =>
      if stamp_le (fst x) (fst y) then x :: l else y :: insert_row x l'
  end.

(** [df.sort_index()]: ascending by label; rows with equal labels stay
    in their input order here (pandas leaves that to its sort). *)
Definition sort_index (l : list (option Z * list cell))
  : list (option Z * list cell) :=
  fold_right insert_row [] l.

(** The bounds of the slice [f"{date}T19:00:00":f"{date}T20:00:00"].
    Each label is a text with the resolution of a second.  A text label
    of a [DatetimeIndex] slice stands for its whole period: pandas casts
    the left label to the first and the right label to the last
    nanosecond of the period, here of the second (the rule by which the
    slice ["2013-1":"2013-2-28"] takes in all of the last day).  A text
    without zone is read in the zone of the index. *)
Definition slice_bounds (date : string) : result (Z * Z) :=
  do lo <- of_option KeyError (to_datetime (date +:+ "T19:00:00"));
  do hi <- of_option KeyError (to_datetime (date +:+ "T20:00:00"));
  Ok (lo, (hi + Iso8601.second_ns - 1)%Z).

(** [index.is_monotonic_increasing]; an index holding [NaT] is not. *)
Fixpoint is_monotonic_increasing (idx : list (option Z)) : bool :=
  match idx with
  | [] => true
  | None :: _ => false
  | Some x :: idx' =>
      match idx' with
      | Some y :: _ => (x <=? y)%Z
      | _ => true
      end && is_monotonic_increasing idx'
  end.

(** Label within the slice; [NaT] compares false. *)
Definition in_slice (lo hi : Z) (t : option Z) : bool :=
  match t with
  | Some x => (lo <=? x)%Z && (x <=? hi)%Z
  | None => false
  end.

Definition before (lo : Z) (t : option Z) : bool :=
  match t with
  | Some x => (x <? lo)%Z
  | None => false
  end.

Definition upto (hi : Z) (t : option Z) : bool :=
  match t with
  | Some x => (x <=? hi)%Z
  | None => false
  end.

Definition is_label (x : Z) (t : option Z) : bool :=
  match t with
  | Some y => (x =? y)%Z
  | None => false
  end.

Fixpoint drop_while {A} (f : A -> bool) (l : list A) : list A :=
  match l with
  | [] => []
  | x :: l' => if f x then drop_while f l' else l
  end.

Fixpoint take_while {A} (f : A -> bool) (l : list A) : list A :=
  match l with
  | [] => []
  | x :: l' => if f x then x :: take_while f l' else []
  end.

(** [.loc[lo:hi, :]] on the sorted frame, as pandas 2 slices a
    [DatetimeIndex] by labels: on a monotonic index the run between the
    two insertion points; otherwise by comparison with both bounds, and
    only if both labels occur in the index. *)
Definition loc_slice (lo hi : Z) (l : list (option Z * list cell))
  : result (list (option Z * list cell)) :=
  let idx := map fst l in
  if is_monotonic_increasing idx then
    Ok (take_while (fun r => upto hi (fst r))
          (drop_while (fun r => before lo (fst r)) l))
  else if existsb (is_label lo) idx && existsb (is_label hi) idx then
    Ok (List.filter (fun r => in_slice lo hi (fst r)) l)
  else Raise KeyError.

Definition filter_by_day (df : DataFrame) (date : string)
  : result DataFrame :=
  do stamps <- DatetimeIndex df;
  let sorted := sort_index (combine stamps (rows df)) in
  do '(lo, hi) <- slice_bounds date;
  do kept <- loc_slice lo hi sorted;
  Ok {| columns := columns df;
        dtypes := dtypes df;
        rows := map snd kept |}.

End WithParser.
End Day.

(** ** Keyphrase validator: [filter_by_passphrase] *)

Definition FUZZ_THRESHOLD : Z := 70.

Module Passphrase.
Section WithRatio.

(** [fuzz.partial_token_set_ratio] of thefuzz, a parameter of the
    embedding: a score between two texts. *)
Variable partial_token_set_ratio : string -> string -> Z.

Definition ckey : string := "What is the Concept of the Day?".

(** [x.strip().lower()]; only a [str] has the method. *)
Definition normalize (c : cell) : result cell :=
  match c with
  | Str s => Ok (Str (PyStr.lower (PyStr.strip s)))
  | _ => Raise AttributeError
  end.

(** [df[ckey] = list(map(lambda x: x.strip().lower(), df[ckey]))]: the
    column is replaced in the frame that was passed in. *)
Definition assign_normalized (df : DataFrame) : result DataFrame :=
  do i <- of_option KeyError (Frame.position ckey (columns df));
  do rows' <- mapM (fun r => do c <- of_option KeyError (nth_error r i);
                             do c' <- normalize c;
                             Ok (<[i := c']> r))
                   (rows df);
  Ok {| columns := columns df;
        dtypes := <[i := dt_object]> (dtypes df);
        rows := rows' |}.

(** The row test [fuzz.partial_token_set_ratio(x[ckey], passphrase) >=
    FUZZ_THRESHOLD]. *)
Definition passes (cols : list string) (passphrase : string)
           (r : list cell) : bool :=
  match Frame.get cols ckey r with
  | Some (Str s) =>
      (FUZZ_THRESHOLD <=? partial_token_set_ratio s passphrase)%Z
  | _ => false
  end.

(** [df[df.apply(..., axis=1)]].  Over a frame with rows [apply] gives
    the boolean mask of the row test.  Over a frame without rows it gives
    an empty series that is no mask; indexing with it selects columns by
    label, none of them: the result has no column. *)
Definition filter_by_passphrase (df : DataFrame) (passphrase : string)
  : result DataFrame :=
  do df <- assign_normalized df;
  match rows df with
  | [] => Ok {| columns := []; dtypes := []; rows := [] |}
  | _ =>
      Ok {| columns := columns df;
            dtypes := dtypes df;
            rows := List.filter (passes (columns df) passphrase) (rows df) |}
  end.

End WithRatio.
End Passphrase.

(** ** Signal extractor, assistance detector and report *)

Module Signals.

Definition matches_any (subs : list string) (s : string) : bool :=
  existsb (fun x => PyStr.contains x s) subs.

Definition numeric_matches : list string :=
  ["hours"; "Help"; "Understanding"; "Speed"].

Definition rating_matches : list string :=
  ["Help"; "Understanding"; "Speed"].

Section WithToNumeric.

(** [pd.to_numeric] on a text, a parameter of the embedding: [None]
    when the text is no number. *)
Variable to_numeric : string -> option Q.

(** [pd.to_numeric(..., errors="coerce")] on one cell. *)
Definition coerce (c : cell) : cell :=
  match c with
  | Str s =>
      match to_numeric s with
      | Some q => Num q
      | None => NaN
      end
  | Num q => Num q
  | NaN => NaN
  end.

Fixpoint zip_with_flags {A} (f : A -> A) (flags : list bool)
         (xs : list A) : list A :=
  match flags, xs with
  | b :: flags', x :: xs' =>
      (if b then f x else x) :: zip_with_flags f flags' xs'
  | _, _ => xs
  end.

(** [df[num_cols] = df[num_cols].apply(pd.to_numeric, errors="coerce",
    axis=1)].  Over a frame without rows [apply] gives the frame
    back, so the dtypes stay. *)
Definition convert_numeric_cols (df : DataFrame) : DataFrame :=
  let flags := map (matches_any numeric_matches) (columns df) in
  match rows df with
  | [] => df
  | _ =>
      {| columns := columns df;
         dtypes := zip_with_flags (fun _ => dt_number) flags (dtypes df);
         rows := map (zip_with_flags coerce flags) (rows df) |}
  end.

End WithToNumeric.

(** One cell of [.lt(2)]: a missing value compares false, a text cannot
    be compared with a number. *)
Definition lt (bound : Q) (c : cell) : result bool :=
  match c with
  | Num q => Ok (negb (Qle_bool bound q))
  | NaN => Ok false
  | Str _ => Raise TypeError
  end.

(** One row of [df[num_cols].lt(2).any(axis=1)]. *)
Definition any_below (flags : list bool) (r : list cell) : result bool :=
  do bs <- mapM (lt 2) (Frame.select flags r);
  Ok (existsb (fun b => b) bs).

Definition identify_assistance_need (df : DataFrame) : result DataFrame :=
  let flags := map (matches_any rating_matches) (columns df) in
  do marks <- mapM (any_below flags) (rows df);
  Ok {| columns := columns df;
        dtypes := dtypes df;
        rows := Frame.select marks (rows df) |}.

(** The mean of one column as pandas takes it: missing values filled
    with zero for the sum, divided by the number of values present;
    missing when none is present. *)
Definition fillna0 (c : cell) : Q :=
  match c with
  | Num q => q
  | _ => 0
  end.

Definition notna (c : cell) : bool :=
  match c with
  | Num _ => true
  | _ => false
  end.

Definition column_at (i : nat) (rs : list (list cell)) : list cell :=
  map (fun r => nth i r NaN) rs.

Section WithFloats.

(** The binary64 arithmetic of numpy, a parameter of the embedding: the
    sum of an array of numbers and the quotient of two numbers, each as
    the float that the library returns. *)
Variable fsum : list Q -> Q.
Variable fdiv : Q -> Q -> Q.

Definition nanmean (col : list cell) : option Q :=
  let count := length (List.filter notna col) in
  if (count =? 0)%nat then None
  else Some (fdiv (fsum (map fillna0 col)) (inject_Z (Z.of_nat count))).

Fixpoint means_from (i : nat) (cols : list string) (dts : list dtype)
         (rs : list (list cell)) : list (string * option Q) :=
  match cols, dts with
  | c :: cols', d :: dts' =>
      let rest := means_from (S i) cols' dts' rs in
      match d with
      | dt_number => (c, nanmean (column_at i rs)) :: rest
      | dt_object => rest
      end
  | _, _ => []
  end.

(** [df.select_dtypes("number").mean()] *)
Definition report (df : DataFrame) : list (string * option Q) :=
  means_from 0 (columns df) (dtypes df) (rows df).

End WithFloats.

End Signals.

(** ** Binary64 arithmetic for the examples

    Rounding to the nearest number with a significand of 53 bits, ties to
    even, within the range of normal numbers; a sum adds from left to
    right, as numpy does over a short array. *)

Module Binary64.

(** The integer nearest to [n / d], for a positive [d]. *)
Definition nearest (n d : Z) : Z :=
  let q := (n / d)%Z in
  match (2 * (n mod d) ?= d)%Z with
  | Lt => q
  | Gt => (q + 1)%Z
  | Eq => if Z.even q then q else (q + 1)%Z
  end.

(** [2 ^ e], and 1 for a negative [e]. *)
Definition scale (e : Z) : Z := (2 ^ Z.max 0 e)%Z.

(** The exponent [e] with [2 ^ 52 <= (a / d) / 2 ^ e < 2 ^ 53], for
    positive [a] and [d]. *)
Definition exponent (a d : Z) : Z :=
  let e := (Z.log2 a - Z.log2 d - 52)%Z in
  if (a * scale (- e) <? d * scale e * 2 ^ 52)%Z then (e - 1)%Z else e.

Definition round (x : Q) : Q :=
  let n := Qnum x in
  let d := Zpos (Qden x) in
  if (n =? 0)%Z then 0%Q
  else
    let e := exponent (Z.abs n) d in
    let m := nearest (Z.abs n * scale (- e)) (d * scale e) in
    Qred (inject_Z (Z.sgn n * m * scale e) / inject_Z (scale (- e))).

Definition add (x y : Q) : Q := round (x + y).

Definition sum (l : list Q) : Q := fold_left add l 0%Q.

Definition div (x y : Q) : Q := round (x / y).

End Binary64.

(** ** Roster reconciler: [CanvasCourse] *)

Module Canvas.

(** One row of [uids], the profile of an enrolled student. *)
Record profile : Type := mkProfile {
  id : Z;
  name : string;
  login_id : string
}.

(** The row that [set_score] receives: the profile of an enrolled
    student, or the row of missing values on which [DataFrame.apply]
    calls its function when the frame has no rows. *)
Inductive student : Type :=
| Enrolled (p : profile)
| AllNaN.

(** One call [set_score(student, assignment, score)]. *)
Definition call : Type := (student * Z)%type.

(** What a run leaves behind: the calls of [set_score] in order, the
    printed list of students in need of support and the two files. *)
Record world : Type := mkWorld {
  calls : list call;
  printed : option (list cell);
  report_csv : option (list (string * option Q));
  out_csv : option DataFrame
}.

Definition empty_world : world :=
  {| calls := []; printed := None; report_csv := None; out_csv := None |}.

(** Computations that change the world and may raise. *)
Definition M (A : Type) : Type := world -> result A * world.

Definition mret {A} (a : A) : M A := fun w => (Ok a, w).

Definition mseq {A B} (m : M A) (k : A -> M B) : M B :=
  fun w =>
    match m w with
    | (Ok a, w') => k a w'
    | (Raise e, w') => (Raise e, w')
    end.

Definition lift {A} (r : result A) : M A := fun w => (r, w).

(** A computation whose exception is passed over. *)
Definition ignoring (m : M unit) : M unit := fun w => (Ok tt, snd (m w)).

Notation "'run' x <- m ; k" := (mseq m (fun x => k))
  (at level 10, x name, m at level 100, k at level 200).

(** [series.isin(df["respondentEmail"])] on one login. *)
Definition isin (login : string) (emails : list cell) : bool :=
  existsb (fun c => match c with
                    | Str s => String.eqb login s
                    | _ => false
                    end) emails.

(** [df[c]] *)
Definition column (c : string) (df : DataFrame) : result (list cell) :=
  do i <- of_option KeyError (Frame.position c (columns df));
  mapM (fun r => of_option KeyError (nth_error r i)) (rows df).

Section WithProvider.

(** The gradebook provider, a parameter of the embedding: whether
    [assignment.get_submission(student["id"])] followed by
    [submission.edit(...)] goes through, given the calls made before. *)
Variable provider : list call -> call -> bool.

Definition set_score (student : student) (score : Z) : M unit :=
  fun w =>
    let w' := {| calls := calls w ++ [(student, score)];
                 printed := printed w;
                 report_csv := report_csv w;
                 out_csv := out_csv w |} in
    if provider (calls w) (student, score) then (Ok tt, w')
    else (Raise ProviderError, w').

Fixpoint each_row (f : student -> M unit) (l : list profile)
  : M unit :=
  match l with
  | [] => mret tt
  | x :: l' => run _ <- f (Enrolled x); each_row f l'
  end.

(** [frame.apply(f, axis=1)] for its effects.  Over a frame with rows:
    row after row, the first exception ends it.  Over a frame without
    rows pandas still calls [f] once, on a row of missing values, and
    passes over an exception of that call. *)
Definition apply_rows (f : student -> M unit) (l : list profile)
  : M unit :=
  match l with
  | [] => ignoring (f AllNaN)
  | _ => each_row f l
  end.

(** Without an enrolled student [uids] is a frame without columns and
    [uids["login_id"]] raises. *)
Definition canvas_upload (uids : list profile) (df : DataFrame) : M unit :=
  match uids with
  | [] => lift (Raise KeyError)
  | _ =>
      run emails <- lift (column "respondentEmail" df);
      let absent :=
        List.filter (fun u => negb (isin (login_id u) emails)) uids in
      run _ <- apply_rows (fun x => set_score x 0) absent;
      let present := List.filter (fun u => isin (login_id u) emails) uids in
      apply_rows (fun x => set_score x 1) present
  end.

End WithProvider.

End Canvas.

(** ** The run: [main] *)

Section Main.

Variable to_datetime : string -> option Z.
Variable partial_token_set_ratio : string -> string -> Z.
Variable to_numeric : string -> option Q.
Variable fsum : list Q -> Q.
Variable fdiv : Q -> Q -> Q.
Variable provider : list Canvas.call -> Canvas.call -> bool.

(** The steps of [main] up to the report: the validated, converted
    frame. *)
Definition validated (responses : DataFrame)
           (q_titles : gmap string string) (date keyphrase : string)
  : result DataFrame :=
  let keyphrase := PyStr.lower (PyStr.strip keyphrase) in
  do attend_df <- AttendanceForm.get_attendance responses q_titles;
  do attend_df <- Day.filter_by_day to_datetime attend_df date;
  do attend_df <-
    Passphrase.filter_by_passphrase partial_token_set_ratio
      attend_df keyphrase;
  Ok (Signals.convert_numeric_cols to_numeric attend_df).

Definition write_report (r : list (string * option Q)) : Canvas.M unit :=
  fun w => (Ok tt, {| Canvas.calls := Canvas.calls w;
                      Canvas.printed := Canvas.printed w;
                      Canvas.report_csv := Some r;
                      Canvas.out_csv := Canvas.out_csv w |}).

Definition print_support (emails : list cell) : Canvas.M unit :=
  fun w => (Ok tt, {| Canvas.calls := Canvas.calls w;
                      Canvas.printed := Some emails;
                      Canvas.report_csv := Canvas.report_csv w;
                      Canvas.out_csv := Canvas.out_csv w |}).

Definition write_out (df : DataFrame) : Canvas.M unit :=
  fun w => (Ok tt, {| Canvas.calls := Canvas.calls w;
                      Canvas.printed := Canvas.printed w;
                      Canvas.report_csv := Canvas.report_csv w;
                      Canvas.out_csv := Some df |}).

Definition main (responses : DataFrame) (q_titles : gmap string string)
           (uids : list Canvas.profile) (date keyphrase : string)
  : Canvas.M unit :=
  Canvas.mseq
    (Canvas.lift (validated responses q_titles date keyphrase))
    (fun attend_df =>
  Canvas.mseq (write_report (Signals.report fsum fdiv attend_df)) (fun _ =>
  Canvas.mseq (Canvas.lift (Signals.identify_assistance_need attend_df))
    (fun support_df =>
  Canvas.mseq (Canvas.lift (Canvas.column "respondentEmail" support_df))
    (fun emails =>
  Canvas.mseq (print_support emails) (fun _ =>
  Canvas.mseq (Canvas.canvas_upload provider uids attend_df) (fun _ =>
  write_out attend_df)))))).

End Main.

(** ** Statements of the specification, in its own words *)





(** Record [a] comes before record [b] in the sequence [l]. *)
Definition precedes {A} (a b : A) (l : list A) : Prop :=
  exists i j, (i < j)%nat /\ nth_error l i = Some a /\ nth_error l j = Some b.

(** Ascending order of index labels. *)
Definition label_le (a b : option Z) : Prop := Day.stamp_le a b = true.

(** The time stamp of a record: its last-submitted time, when that is a
    text the parser reads. *)
Definition row_stamp (to_datetime : string -> option Z)
           (cols : list string) (r : list cell) : option Z :=
  match Frame.get cols "lastSubmittedTime" r with
  | Some (Str s) => to_datetime s
  | _ => None
  end.

(** The form in which the validator stores and compares an answer. *)
Definition normalized (s : string) : string := PyStr.lower (PyStr.strip s).

(** A text without upper-case letters and without whitespace at either
    end. *)
Definition is_normal (s : string) : Prop :=
  PyStr.lower s = s /\ PyStr.strip s = s.

(** The free-text answer of a record. *)
Definition answer (cols : list string) (r : list cell) : option string :=
  match Frame.get cols Passphrase.ckey r with
  | Some (Str s) => Some s
  | _ => None
  end.

(** What the validator makes of one record whose answer sits in column
    [i]: the record with the answer normalized, kept when the normalized
    answer scores at least the threshold against the key phrase. *)
Definition validate_record (ratio : string -> string -> Z) (i : nat)
           (passphrase : string) (cols : list string) (r : list cell)
  : option (list cell) :=
  match answer cols r with
  | Some s =>
      if (FUZZ_THRESHOLD <=? ratio (normalized s) passphrase)%Z
      then Some (<[i := Str (normalized s)]> r)
      else None
  | None => None
  end.

(** A rating column: its name contains one of the rating substrings. *)
Definition rating_column (name : string) : Prop :=
  exists x, In x Signals.rating_matches /\ PyStr.contains x name = true.

(** A record needs help when some rating column holds a number below 2. *)
Definition needs_help (cols : list string) (r : list cell) : Prop :=
  exists i name q,
    nth_error cols i = Some name /\ rating_column name
    /\ nth_error r i = Some (Num q) /\ (q < 2)%Q.

Fixpoint flagged (cols : list string) (r : list cell) : bool :=
  match cols, r with
  | c :: cols', x :: r' =>
      (Signals.matches_any Signals.rating_matches c
       && match x with
          | Num q => negb (Qle_bool 2 q)
          | _ => false
          end)
      || flagged cols' r'
  | _, _ => false
  end.

(** The values of a column that are not missing. *)
Definition present (col : list cell) : list Q :=
  omap (fun c => match c with
                 | Num q => Some q
                 | _ => None
                 end) col.

(** The arithmetic mean, undefined for no value. *)
Definition arithmetic_mean (xs : list Q) : option Q :=
  match xs with
  | [] => None
  | _ => Some (fold_right Qplus 0%Q xs / inject_Z (Z.of_nat (length xs)))%Q
  end.

(** Equal means, as rationals. *)
Definition same_mean (a b : option Q) : Prop :=
  match a, b with
  | Some x, Some y => (x == y)%Q
  | None, None => True
  | _, _ => False
  end.

(** Record [r'] holds, in column [i], the normalized answer of some
    record of [df]. *)
Definition normalized_answer_of (df : DataFrame) (i : nat) (r' : list cell)
  : Prop :=
  exists r s,
    In r (rows df) /\ answer (columns df) r = Some s
    /\ nth_error r' i = Some (Str (normalized s)).

(** The decisions of a run: score 0 for the enrolled students whose
    login is not among the respondents, then score 1 for those whose
    login is. *)
Definition decisions (uids : list Canvas.profile) (emails : list cell)
  : list Canvas.call :=
  map (fun u => (Canvas.Enrolled u, 0%Z))
      (List.filter (fun u => negb (Canvas.isin (Canvas.login_id u) emails)) uids)
  ++ map (fun u => (Canvas.Enrolled u, 1%Z))
         (List.filter (fun u => Canvas.isin (Canvas.login_id u) emails) uids).

(** The calls one [apply] makes for a score: one for each student of the
    frame, or one on the row of missing values when the frame is
    empty. *)
Definition graded (score : Z) (l : list Canvas.profile) : list Canvas.call :=
  match l with
  | [] => [(Canvas.AllNaN, score)]
  | _ => map (fun u => (Canvas.Enrolled u, score)) l
  end.

(** The calls of [set_score] that an upload sets out to make, in order. *)
Definition upload_calls (uids : list Canvas.profile) (emails : list cell)
  : list Canvas.call :=
  graded 0
    (List.filter (fun u => negb (Canvas.isin (Canvas.login_id u) emails)) uids)
  ++ graded 1
       (List.filter (fun u => Canvas.isin (Canvas.login_id u) emails) uids).

(** A call on an enrolled student. *)
Definition enrolled_call (c : Canvas.call) : bool :=
  match fst c with
  | Canvas.Enrolled _ => true
  | Canvas.AllNaN => false
  end.

(** The world after further calls of [set_score]. *)
Definition add_calls (cs : list Canvas.call) (w : Canvas.world)
  : Canvas.world :=
  {| Canvas.calls := Canvas.calls w ++ cs;
     Canvas.printed := Canvas.printed w;
     Canvas.report_csv := Canvas.report_csv w;
     Canvas.out_csv := Canvas.out_csv w |}.

(** Posting a sequence of calls one after the other; a failure of a
    call on the row of missing values is passed over. *)
Fixpoint post_all (provider : list Canvas.call -> Canvas.call -> bool)
         (ds : list Canvas.call) : Canvas.M unit :=
  match ds with
  | [] => Canvas.mret tt
  | d :: ds' =>
      Canvas.mseq
        (if enrolled_call d
         then Canvas.set_score provider (fst d) (snd d)
         else Canvas.ignoring (Canvas.set_score provider (fst d) (snd d)))
        (fun _ => post_all provider ds')
  end.

(** The mean of a column in float arithmetic: missing when no value is
    present, else the quotient of the sum of the column, a missing value
    counting as zero, by the number of values present. *)
Definition float_mean (fsum : list Q -> Q) (fdiv : Q -> Q -> Q)
           (col : list cell) : option Q :=
  match present col with
  | [] => None
  | xs => Some (fdiv (fsum (map Signals.fillna0 col))
                     (inject_Z (Z.of_nat (length xs))))
  end.

(** ** Sample data *)

Module Sample.

Definition meta : list string :=
  ["responseId"; "createTime"; "lastSubmittedTime"; "respondentEmail"].

Definition fields : list string :=
  ["answers_1a_questionId"; "answers_1a_textAnswers_answers_0_value";
   "answers_2b_questionId"; "answers_2b_textAnswers_answers_0_value";
   "answers_3c_questionId"; "answers_3c_textAnswers_answers_0_value"].

Definition submission (rid time email concept rating : string)
  : list cell :=
  [Str rid; Str time; Str time; Str email;
   Str "1a"; Str concept; Str "2b"; Str rating; Str "3c"; Str "old"].

(** Four flattened responses of one lecture day. *)
Definition responses : DataFrame :=
  {| columns := meta ++ fields;
     dtypes := repeat dt_object 10;
     rows :=
       [submission "r1" "2023-01-10T19:30:00Z" "a@x.edu" "  Graphs " "1";
        submission "r2" "2023-01-10T19:10:00.25Z" "b@x.edu" "graphs" "abc";
        submission "r3" "2023-01-10T20:00:00.5Z" "c@x.edu" "GRAPHS" "4";
        submission "r4" "2023-01-10T20:00:01Z" "d@x.edu" "graphs" "5"] |}.

(** The current form: question [3c] is gone. *)
Definition q_titles : gmap string string :=
  <["1a" := "What is the Concept of the Day?"]>
    (<["2b" := "Understanding"]> ∅).

Definition record (rid time email concept rating : string) : list cell :=
  [Str rid; Str time; Str time; Str email; Str concept; Str rating].

Definition r1 : list cell :=
  record "r1" "2023-01-10T19:30:00Z" "a@x.edu" "  Graphs " "1".
Definition r2 : list cell :=
  record "r2" "2023-01-10T19:10:00.25Z" "b@x.edu" "graphs" "abc".
Definition r3 : list cell :=
  record "r3" "2023-01-10T20:00:00.5Z" "c@x.edu" "GRAPHS" "4".
Definition r4 : list cell :=
  record "r4" "2023-01-10T20:00:01Z" "d@x.edu" "graphs" "5".

(** The same responses under the titles of the current form. *)
Definition attendance : DataFrame :=
  {| columns := meta ++ ["What is the Concept of the Day?"; "Understanding"];
     dtypes := repeat dt_object 6;
     rows := [r1; r2; r3; r4] |}.

(** The records of [attendance] that the filter keeps for 2023-01-10. *)
Definition of_the_day : DataFrame :=
  {| columns := columns attendance;
     dtypes := dtypes attendance;
     rows := [r2; r1; r3] |}.

(** A frame with one time stamp that is no date. *)
Definition garbled : DataFrame :=
  {| columns := columns attendance;
     dtypes := dtypes attendance;
     rows := [r1; record "r5" "yesterday" "e@x.edu" "graphs" "3"] |}.

(** A scorer for the examples: full marks for equal texts. *)
Definition same_text (a b : string) : Z :=
  if String.eqb a b then 100%Z else 0%Z.

(** A reader of numbers for the examples: a text of decimal digits. *)
Definition whole_number (s : string) : option Q :=
  match s with
  | EmptyString => None
  | _ =>
      match Iso8601.number (String.length s) 0 s with
      | Some (n, _) => Some (inject_Z n)
      | None => None
      end
  end.

Definition alice : Canvas.profile :=
  {| Canvas.id := 101; Canvas.name := "Alice"; Canvas.login_id := "a@x.edu" |}.
Definition bob : Canvas.profile :=
  {| Canvas.id := 102; Canvas.name := "Bob"; Canvas.login_id := "b@x.edu" |}.
Definition eve : Canvas.profile :=
  {| Canvas.id := 103; Canvas.name := "Eve"; Canvas.login_id := "e@x.edu" |}.
Definition dan : Canvas.profile :=
  {| Canvas.id := 104; Canvas.name := "Dan"; Canvas.login_id := "d@x.edu" |}.

Definition roster : list Canvas.profile := [alice; bob; eve; dan].

(** A provider that accepts every grade. *)
Definition accepts_all (log : list Canvas.call) (c : Canvas.call) : bool :=
  true.


(** A provider that fails for one student, and for the row of missing
    values. *)
Definition refuses (login : string) (log : list Canvas.call)
           (c : Canvas.call) : bool :=
  match fst c with
  | Canvas.Enrolled p => negb (String.eqb (Canvas.login_id p) login)
  | Canvas.AllNaN => false
  end.

(** The validated, converted table of the sample run. *)
Definition table : DataFrame :=
  {| columns := columns attendance;
     dtypes := repeat dt_object 5 ++ [dt_number];
     rows :=
       [[Str "r2"; Str "2023-01-10T19:10:00.25Z"; Str "2023-01-10T19:10:00.25Z";
         Str "b@x.edu"; Str "graphs"; NaN];
        [Str "r1"; Str "2023-01-10T19:30:00Z"; Str "2023-01-10T19:30:00Z";
         Str "a@x.edu"; Str "graphs"; Num 1];
        [Str "r3"; Str "2023-01-10T20:00:00.5Z"; Str "2023-01-10T20:00:00.5Z";
         Str "c@x.edu"; Str "graphs"; Num 4]] |}.

End Sample.


(** ** The form body: [get_question_ids] *)

Module FormBody.

(** One entry of [body["items"]]: its title, when it has one, and the
    identifier under [questionItem], [question], [questionId], when the
    item is a question. *)
Record item : Type := mkItem {
  title : option string;
  questionId : option string
}.

(** One step of the dictionary comprehension: a later item with the same
    identifier replaces the earlier one; a missing key raises. *)
Definition add_item (acc : result (gmap string string)) (x : item)
  : result (gmap string string) :=
  do q <- acc;
  do k <- of_option KeyError (questionId x);
  do t <- of_option KeyError (title x);
  Ok (<[k := t]> q).

Definition get_question_ids (items : list item)
  : result (gmap string string) :=
  fold_left add_item items (Ok ∅).

(** [get_attendance] with the dictionary taken from the form body, in
    the order of the source: the columns are cleaned first. *)
Definition get_attendance (responses : DataFrame) (items : list item)
  : result DataFrame :=
  do '(df, keys) <- AttendanceForm.clean_column_index responses;
  do q_titles <- get_question_ids items;
  let dropcols :=
    List.filter (fun k => negb (AttendanceForm.has_key q_titles k)) keys in
  let df := Frame.drop dropcols df in
  Frame.set_columns
    (map (fun x => match q_titles !! x with
                   | Some title => title
                   | None => x
                   end) (columns df))
    df.

End FormBody.

(** Every dtype and every row lines up with the column labels. *)
Definition well_formed (df : DataFrame) : Prop :=
  length (dtypes df) = length (columns df)
  /\ Forall (fun r => length r = length (columns df)) (rows df).


(** The first and the last character of a text. *)
Definition first_char (s : string) : option ascii :=
  match s with
  | EmptyString => None
  | String c _ => Some c
  end.

Fixpoint last_char (s : string) : option ascii :=
  match s with
  | EmptyString => None
  | String c EmptyString => Some c
  | String _ s' => last_char s'
  end.


(** The same frame with other rows. *)
Definition with_rows (df : DataFrame) (rs : list (list cell)) : DataFrame :=
  {| columns := columns df; dtypes := dtypes df; rows := rs |}.


(** A form body for the examples: two questions and a section header. *)
Module SampleForm.

Definition concept : FormBody.item :=
  {| FormBody.title := Some "What is the Concept of the Day?";
     FormBody.questionId := Some "1a" |}.

Definition understanding : FormBody.item :=
  {| FormBody.title := Some "Understanding";
     FormBody.questionId := Some "2b" |}.

Definition header : FormBody.item :=
  {| FormBody.title := Some "About today"; FormBody.questionId := None |}.

Definition items : list FormBody.item := [concept; understanding].

End SampleForm.

(** * Properties *)

(** ** Helper lemmas on lists and results *)

Lemma select_map_filter {A} (f : A -> bool) (xs : list A) :
  Frame.select (map f xs) xs = List.filter f xs.
Proof.
  induction xs as [|x xs IH]; simpl; [reflexivity|].
  destruct (f x); rewrite IH; reflexivity.
Qed.

Lemma mem_true_iff (x : string) (l : list string) :
  Frame.mem x l = true <-> In x l.
Proof.
  unfold Frame.mem. rewrite existsb_exists. split.
  - intros (y & Hy & Heq). apply String.eqb_eq in Heq. subst. exact Hy.
  - intros H. exists x. split; [exact H | apply String.eqb_refl].
Qed.

Lemma mem_false_iff (x : string) (l : list string) :
  Frame.mem x l = false <-> ~ In x l.
Proof.
  rewrite <- mem_true_iff. destruct (Frame.mem x l); split; intros H;
    congruence || (exfalso; apply H; reflexivity) || reflexivity.
Qed.

Lemma drop_columns (labels : list string) (df : DataFrame) :
  columns (Frame.drop labels df)
  = List.filter (fun c => negb (Frame.mem c labels)) (columns df).
Proof. unfold Frame.drop; simpl. apply select_map_filter. Qed.

Lemma filter_all {A} (f : A -> bool) (l : list A) :
  Forall (fun x => f x = true) l -> List.filter f l = l.
Proof.
  induction 1 as [|x l Hx _ IH]; simpl; [reflexivity|].
  rewrite Hx, IH. reflexivity.
Qed.

Lemma filter_none {A} (f : A -> bool) (l : list A) :
  Forall (fun x => f x = false) l -> List.filter f l = [].
Proof.
  induction 1 as [|x l Hx _ IH]; simpl; [reflexivity|].
  rewrite Hx. exact IH.
Qed.

Lemma mapM_ok_map {A B} (f : A -> result B) (g : A -> B) (l : list A) :
  Forall (fun x => f x = Ok (g x)) l -> mapM f l = Ok (map g l).
Proof.
  induction 1 as [|x l Hx _ IH]; simpl; [reflexivity|].
  rewrite Hx; simpl. rewrite IH; reflexivity.
Qed.

Lemma mapM_raise {A B} (f : A -> result B) (l : list A) (x : A) (e : exn) :
  In x l -> f x = Raise e -> exists e', mapM f l = Raise e'.
Proof.
  induction l as [|y l IH]; simpl; [contradiction|].
  intros [->|Hin] Hx.
  - rewrite Hx. eexists; reflexivity.
  - destruct (f y); simpl; [|eexists; reflexivity].
    destruct (IH Hin Hx) as [e' ->]. eexists; reflexivity.
Qed.

(** ** Schema normalizer *)

Lemma mem_filter_self (p : string -> bool) (l : list string) (c : string) :
  In c l -> Frame.mem c (List.filter p l) = p c.
Proof.
  intros Hin. destruct (p c) eqn:Hp.
  - apply mem_true_iff, filter_In. split; assumption.
  - apply mem_false_iff. intros H. apply filter_In in H. destruct H; congruence.
Qed.

Lemma drop_filtered (p : string -> bool) (l : list string) :
  List.filter (fun c => negb (Frame.mem c (List.filter p l))) l
  = List.filter (fun c => negb (p c)) l.
Proof.
  apply filter_ext_in. intros c Hin. rewrite mem_filter_self; auto.
Qed.









(** ** Time window filter *)

Lemma stamp_le_total (a b : option Z) :
  Day.stamp_le a b = true \/ Day.stamp_le b a = true.
Proof.
  destruct a as [x|], b as [y|]; simpl; auto.
  destruct (Z.leb_spec x y); [auto|]. right. apply Z.leb_le. lia.
Qed.

Lemma stamp_le_trans (a b c : option Z) :
  Day.stamp_le a b = true -> Day.stamp_le b c = true ->
  Day.stamp_le a c = true.
Proof.
  destruct a as [x|], b as [y|], c as [z|]; simpl; try congruence.
  rewrite !Z.leb_le. lia.
Qed.

Lemma insert_row_perm (x : option Z * list cell) l :
  Permutation (Day.insert_row x l) (x :: l).
Proof.
  induction l as [|y l IH]; simpl; [reflexivity|].
  destruct (Day.stamp_le (fst x) (fst y)); [reflexivity|].
  rewrite IH. apply perm_swap.
Qed.

Lemma sort_index_perm l : Permutation (Day.sort_index l) l.
Proof.
  induction l as [|x l IH]; simpl; [reflexivity|].
  rewrite insert_row_perm. apply perm_skip, IH.
Qed.

Lemma insert_row_sorted (x : option Z * list cell) l :
  StronglySorted (fun a b => label_le (fst a) (fst b)) l ->
  StronglySorted (fun a b => label_le (fst a) (fst b)) (Day.insert_row x l).
Proof.
  induction 1 as [|y l Hs IH Hy]; simpl.
  - constructor; constructor.
  - destruct (Day.stamp_le (fst x) (fst y)) eqn:Hxy.
    + constructor; [constructor; assumption|].
      constructor; [exact Hxy|].
      eapply List.Forall_impl; [|exact Hy]. intros z Hz.
      unfold label_le in *. eapply stamp_le_trans; eassumption.
    + constructor; [exact IH|].
      assert (Hyx : label_le (fst y) (fst x)).
      { destruct (stamp_le_total (fst x) (fst y)); [congruence | assumption]. }
      rewrite List.Forall_forall in Hy |- *. intros z Hz.
      apply (Permutation_in _ (insert_row_perm x l)) in Hz.
      destruct Hz as [<-|Hz]; [exact Hyx | exact (Hy z Hz)].
Qed.

Lemma sort_index_sorted l :
  StronglySorted (fun a b => label_le (fst a) (fst b)) (Day.sort_index l).
Proof.
  induction l as [|x l IH]; simpl; [constructor|].
  apply insert_row_sorted, IH.
Qed.

Lemma filter_perm {A} (f : A -> bool) (l l' : list A) :
  Permutation l l' -> Permutation (List.filter f l) (List.filter f l').
Proof.
  induction 1 as [|x l l' _ IH|x y l|l l' l'' _ IH1 _ IH2]; simpl.
  - constructor.
  - destruct (f x); [apply perm_skip|]; exact IH.
  - destruct (f x), (f y); try reflexivity. apply perm_swap.
  - etransitivity; eassumption.
Qed.

Lemma filter_sorted {A} (R : A -> A -> Prop) (f : A -> bool) (l : list A) :
  StronglySorted R l -> StronglySorted R (List.filter f l).
Proof.
  induction 1 as [|x l Hs IH Hx]; simpl; [constructor|].
  destruct (f x); [|exact IH]. constructor; [exact IH|].
  rewrite List.Forall_forall in Hx |- *. intros y Hy.
  apply filter_In in Hy. apply Hx, Hy.
Qed.

Lemma sorted_monotonic (l : list (option Z * list cell)) :
  StronglySorted (fun a b => label_le (fst a) (fst b)) l ->
  Forall (fun r => fst r <> None) l ->
  Day.is_monotonic_increasing (map fst l) = true.
Proof.
  induction 1 as [|[[x|] r] l Hs IH Hx]; intros Hall; [reflexivity| |].
  - inversion Hall as [|? ? _ Hall']; subst. cbn [map fst Day.is_monotonic_increasing].
    rewrite (IH Hall'), andb_true_r.
    destruct l as [|[[y|] r'] l']; cbn [map fst]; try reflexivity.
    inversion Hx as [|? ? Hxy _]; subst. exact Hxy.
  - inversion Hall as [|? ? Hne _]; subst. simpl in Hne. congruence.
Qed.

Lemma take_while_slice (lo hi : Z) (l : list (option Z * list cell)) :
  StronglySorted (fun a b => label_le (fst a) (fst b)) l ->
  Forall (fun r => Day.before lo (fst r) = false /\ fst r <> None) l ->
  Day.take_while (fun r => Day.upto hi (fst r)) l
  = List.filter (fun r => Day.in_slice lo hi (fst r)) l.
Proof.
  induction 1 as [|[[x|] r] l Hs IH Hx]; intros Hall; [reflexivity| |].
  - inversion Hall as [|? ? [Hlo _] Hall']; subst. simpl in Hlo.
    cbn [Day.take_while List.filter fst Day.upto Day.in_slice].
    replace (lo <=? x)%Z with true by (symmetry; apply Z.leb_le; apply Z.ltb_ge, Hlo).
    cbn [andb]. destruct (x <=? hi)%Z eqn:Hhi.
    + rewrite (IH Hall'). reflexivity.
    + symmetry. apply filter_none.
      rewrite List.Forall_forall in Hx, Hall' |- *. intros [[y|] r'] Hy.
      * pose proof (Hx _ Hy) as Hxy. unfold label_le in Hxy. simpl in Hxy.
        apply Z.leb_le in Hxy. apply Z.leb_gt in Hhi. simpl.
        apply andb_false_iff. right. apply Z.leb_gt. lia.
      * reflexivity.
  - inversion Hall as [|? ? [_ Hne] _]; subst. simpl in Hne. congruence.
Qed.

Lemma drop_take_slice (lo hi : Z) (l : list (option Z * list cell)) :
  StronglySorted (fun a b => label_le (fst a) (fst b)) l ->
  Forall (fun r => fst r <> None) l ->
  Day.take_while (fun r => Day.upto hi (fst r))
    (Day.drop_while (fun r => Day.before lo (fst r)) l)
  = List.filter (fun r => Day.in_slice lo hi (fst r)) l.
Proof.
  induction 1 as [|[[x|] r] l Hs IH Hx]; intros Hall; [reflexivity| |].
  - inversion Hall as [|? ? _ Hall']; subst.
    cbn [Day.drop_while fst Day.before].
    destruct (x <? lo)%Z eqn:Hlo.
    + rewrite (IH Hall'). cbn [List.filter fst Day.in_slice].
      replace (lo <=? x)%Z with false by (symmetry; apply Z.leb_gt, Z.ltb_lt, Hlo).
      reflexivity.
    + apply take_while_slice; [constructor; assumption|].
      constructor; [split; [exact Hlo | discriminate]|].
      rewrite List.Forall_forall in Hx, Hall' |- *. intros [[y|] r'] Hy.
      * split; [|discriminate]. pose proof (Hx _ Hy) as Hxy.
        unfold label_le in Hxy. simpl in Hxy. apply Z.leb_le in Hxy.
        apply Z.ltb_ge in Hlo. simpl. apply Z.ltb_ge. lia.
      * exfalso. exact (Hall' _ Hy eq_refl).
  - inversion Hall as [|? ? Hne _]; subst. simpl in Hne. congruence.
Qed.

Lemma combine_map_self {A B} (f : A -> B) (l : list A) :
  combine (map f l) l = map (fun x => (f x, x)) l.
Proof. induction l as [|x l IH]; simpl; [|rewrite IH]; reflexivity. Qed.

Lemma filter_map_comm {A B} (f : B -> bool) (g : A -> B) (l : list A) :
  List.filter f (map g l) = map g (List.filter (fun x => f (g x)) l).
Proof.
  induction l as [|x l IH]; simpl; [reflexivity|].
  destruct (f (g x)); simpl; rewrite IH; reflexivity.
Qed.

Lemma sorted_map_fst {A B} (R : A -> A -> Prop) (l : list (A * B)) :
  StronglySorted (fun a b => R (fst a) (fst b)) l ->
  StronglySorted R (map fst l).
Proof.
  induction 1 as [|x l Hs IH Hx]; simpl; constructor; [exact IH|].
  apply Forall_map. exact Hx.
Qed.

Lemma position_in (c : string) (cols : list string) :
  In c cols -> exists i, Frame.position c cols = Some i.
Proof.
  induction cols as [|x cols IH]; simpl; [contradiction|].
  intros [->|Hin].
  - rewrite String.eqb_refl. eexists; reflexivity.
  - destruct (String.eqb x c); [eexists; reflexivity|].
    destruct (IH Hin) as [i ->]. eexists; reflexivity.
Qed.

Section DayFacts.

Variable to_datetime : string -> option Z.

Lemma DatetimeIndex_ok (df : DataFrame) :
  In "lastSubmittedTime" (columns df) ->
  Forall (fun r => row_stamp to_datetime (columns df) r <> None) (rows df) ->
  Day.DatetimeIndex to_datetime df
  = Ok (map (row_stamp to_datetime (columns df)) (rows df)).
Proof.
  intros Hcol Hall. unfold Day.DatetimeIndex.
  destruct (Frame.position "lastSubmittedTime" (columns df)) as [i|] eqn:Hpos;
    cbn [of_option rbind].
  - apply mapM_ok_map. eapply List.Forall_impl; [|exact Hall].
    intros r Hr. simpl in Hr. unfold row_stamp, Frame.get in *.
    rewrite Hpos in *. destruct (nth_error r i) as [[s| |]|]; try congruence.
    cbn [of_option rbind Day.stamp_of_cell].
    destruct (to_datetime s); congruence.
  - destruct (position_in _ _ Hcol) as [i Hi]. congruence.
Qed.

(** What the filter returns on a frame whose records all carry a time
    stamp: the sorted frame cut to the slice. *)
Lemma filter_by_day_ok (df : DataFrame) (date : string) (S E : Z) :
  In "lastSubmittedTime" (columns df) ->
  Forall (fun r => row_stamp to_datetime (columns df) r <> None) (rows df) ->
  to_datetime (date +:+ "T19:00:00") = Some S ->
  to_datetime (date +:+ "T20:00:00") = Some E ->
  Day.filter_by_day to_datetime df date
  = Ok {| columns := columns df;
          dtypes := dtypes df;
          rows :=
            map snd
              (List.filter
                 (fun r => Day.in_slice S (E + Iso8601.second_ns - 1) (fst r))
                 (Day.sort_index
                    (map (fun r => (row_stamp to_datetime (columns df) r, r))
                         (rows df)))) |}.
Proof.
  intros Hcol Hall HS HE. unfold Day.filter_by_day, Day.slice_bounds.
  rewrite (DatetimeIndex_ok df Hcol Hall), HS, HE. cbn [rbind of_option].
  rewrite combine_map_self. unfold Day.loc_slice.
  set (sorted := Day.sort_index _).
  assert (Hs : StronglySorted (fun a b => label_le (fst a) (fst b)) sorted)
    by apply sort_index_sorted.
  assert (Hsome : Forall (fun r => fst r <> None) sorted).
  { apply List.Forall_forall. intros p Hp.
    apply (Permutation_in _ (sort_index_perm _)) in Hp.
    apply in_map_iff in Hp. destruct Hp as (r & <- & Hr).
    rewrite List.Forall_forall in Hall. exact (Hall r Hr). }
  rewrite (sorted_monotonic _ Hs Hsome), (drop_take_slice _ _ _ Hs Hsome).
  reflexivity.
Qed.


(** C7 (amended). The kept records come out in ascending order of their
    time stamps, whatever their order in the input: the output is a
    rearrangement of the records of the input that lie in the slice. *)
Theorem filter_by_day_sorted (df : DataFrame) (date : string) (S E : Z) :
  In "lastSubmittedTime" (columns df) ->
  Forall (fun r => row_stamp to_datetime (columns df) r <> None) (rows df) ->
  to_datetime (date +:+ "T19:00:00") = Some S ->
  to_datetime (date +:+ "T20:00:00") = Some E ->
  exists out,
    Day.filter_by_day to_datetime df date = Ok out
    /\ StronglySorted label_le
         (map (row_stamp to_datetime (columns df)) (rows out))
    /\ Permutation (rows out)
         (List.filter
            (fun r => Day.in_slice S (E + Iso8601.second_ns - 1)
                        (row_stamp to_datetime (columns df) r))
            (rows df)).
Proof.
  intros Hcol Hall HS HE.
  rewrite (filter_by_day_ok df date S E Hcol Hall HS HE).
  eexists. split; [reflexivity|]. cbn [rows].
  set (f := row_stamp to_datetime (columns df)).
  set (g := fun r : option Z * list cell =>
              Day.in_slice S (E + Iso8601.second_ns - 1) (fst r)).
  set (paired := map (fun r => (f r, r)) (rows df)).
  assert (Hfst : forall p, In p (List.filter g (Day.sort_index paired)) ->
                           f (snd p) = fst p).
  { intros p Hp. apply filter_In in Hp. destruct Hp as [Hp _].
    apply (Permutation_in _ (sort_index_perm _)) in Hp.
    apply in_map_iff in Hp. destruct Hp as (r & <- & _). reflexivity. }
  split.
  - rewrite map_map. rewrite (map_ext_in _ fst _ Hfst).
    apply sorted_map_fst, filter_sorted, sort_index_sorted.
  - rewrite (filter_perm g _ _ (sort_index_perm paired)).
    unfold paired. rewrite filter_map_comm, map_map, map_id. reflexivity.
Qed.

(** C9 (amended). A record whose last-submitted time is a text that
    cannot be parsed makes the filter raise: the run ends there, nothing
    is kept and nothing is reported. *)
Theorem filter_by_day_unparseable
        (df : DataFrame) (date : string) (i : nat) (r : list cell)
        (s : string) :
  Frame.position "lastSubmittedTime" (columns df) = Some i ->
  In r (rows df) ->
  nth_error r i = Some (Str s) ->
  to_datetime s = None ->
  exists e, Day.filter_by_day to_datetime df date = Raise e.
Proof.
  intros Hpos Hin Hcell Hparse. unfold Day.filter_by_day, Day.DatetimeIndex.
  rewrite Hpos. cbn [of_option rbind].
  edestruct (mapM_raise
               (fun r => do c <- of_option KeyError (nth_error r i);
                         Day.stamp_of_cell to_datetime c)
               (rows df) r ValueError Hin) as [e He].
  - rewrite Hcell. cbn [of_option rbind Day.stamp_of_cell].
    rewrite Hparse. reflexivity.
  - rewrite He. exists e. reflexivity.
Qed.

End DayFacts.

Example sample_get_attendance :
  AttendanceForm.get_attendance Sample.responses Sample.q_titles
  = Ok Sample.attendance.
Proof. vm_compute. reflexivity. Qed.

Example sample_filter_by_day :
  Day.filter_by_day Iso8601.parse Sample.attendance "2023-01-10"
  = Ok Sample.of_the_day.
Proof. vm_compute. reflexivity. Qed.



Lemma filter_by_day_sorted_witness :
  exists out,
    Day.filter_by_day Iso8601.parse Sample.attendance "2023-01-10" = Ok out
    /\ StronglySorted label_le
         (map (row_stamp Iso8601.parse (columns Sample.attendance)) (rows out))
    /\ Permutation (rows out)
         (List.filter
            (fun r => Day.in_slice 1673377200000000000
                        (1673380800000000000 + Iso8601.second_ns - 1)
                        (row_stamp Iso8601.parse (columns Sample.attendance) r))
            (rows Sample.attendance)).
Proof.
  apply (filter_by_day_sorted Iso8601.parse Sample.attendance "2023-01-10").
  - simpl. auto.
  - repeat (apply List.Forall_cons; [vm_compute; discriminate|]).
    apply List.Forall_nil.
  - vm_compute. reflexivity.
  - vm_compute. reflexivity.
Defined.

(** C7, as stated, fails: [r1] comes before [r2] in the input, both are
    kept, and [r1] does not come before [r2] in the output. *)
Lemma filter_by_day_reorders :
  Day.filter_by_day Iso8601.parse Sample.attendance "2023-01-10"
  = Ok Sample.of_the_day
  /\ precedes Sample.r1 Sample.r2 (rows Sample.attendance)
  /\ In Sample.r1 (rows Sample.of_the_day)
  /\ In Sample.r2 (rows Sample.of_the_day)
  /\ ~ precedes Sample.r1 Sample.r2 (rows Sample.of_the_day).
Proof.
  split; [vm_compute; reflexivity|].
  split; [exists 0%nat, 1%nat; repeat split; lia|].
  split; [simpl; auto|].
  split; [simpl; auto|].
  intros (i & j & Hlt & Hi & Hj).
  destruct i as [|[|[|i]]]; simpl in Hi; try discriminate Hi;
    try (destruct i; discriminate Hi).
  destruct j as [|[|[|j]]]; simpl in Hj; try discriminate Hj; try lia.
  destruct j; discriminate Hj.
Qed.

Lemma filter_by_day_unparseable_witness :
  exists e,
    Day.filter_by_day Iso8601.parse Sample.garbled "2023-01-10" = Raise e.
Proof.
  apply (filter_by_day_unparseable Iso8601.parse Sample.garbled "2023-01-10"
           2%nat (Sample.record "r5" "yesterday" "e@x.edu" "graphs" "3")
           "yesterday").
  - reflexivity.
  - simpl. auto.
  - reflexivity.
  - reflexivity.
Defined.

(** C9, as stated, fails: one time stamp that cannot be parsed makes the
    filter raise, also for the record [r1] whose time stamp parses and
    lies in the window. *)
Lemma filter_by_day_raises_on_garbled :
  In Sample.r1 (rows Sample.garbled)
  /\ Day.in_slice 1673377200000000000 1673380800999999999
       (row_stamp Iso8601.parse (columns Sample.garbled) Sample.r1) = true
  /\ Day.filter_by_day Iso8601.parse Sample.garbled "2023-01-10"
     = Raise ValueError.
Proof.
  split; [simpl; auto|]. split; vm_compute; reflexivity.
Qed.

(** ** Keyphrase validator *)

Lemma lower_char_idem (c : ascii) :
  PyStr.lower_char (PyStr.lower_char c) = PyStr.lower_char c.
Proof.
  destruct c as [[] [] [] [] [] [] [] []]; vm_compute; reflexivity.
Qed.

Lemma is_space_lower_char (c : ascii) :
  PyStr.is_space (PyStr.lower_char c) = PyStr.is_space c.
Proof.
  destruct c as [[] [] [] [] [] [] [] []]; vm_compute; reflexivity.
Qed.

Lemma lower_idem (s : string) : PyStr.lower (PyStr.lower s) = PyStr.lower s.
Proof.
  induction s as [|c s IH]; simpl; [reflexivity|].
  rewrite lower_char_idem, IH. reflexivity.
Qed.

Lemma lstrip_lower (s : string) :
  PyStr.lstrip (PyStr.lower s) = PyStr.lower (PyStr.lstrip s).
Proof.
  induction s as [|c s IH]; [reflexivity|].
  cbn [PyStr.lower PyStr.lstrip]. rewrite is_space_lower_char.
  destruct (PyStr.is_space c); [exact IH | reflexivity].
Qed.

Lemma rstrip_lower (s : string) :
  PyStr.rstrip (PyStr.lower s) = PyStr.lower (PyStr.rstrip s).
Proof.
  induction s as [|c s IH]; [reflexivity|].
  cbn [PyStr.lower PyStr.rstrip]. rewrite IH, is_space_lower_char.
  destruct (PyStr.rstrip s) as [|c' r]; cbn [PyStr.lower].
  - destruct (PyStr.is_space c); reflexivity.
  - reflexivity.
Qed.

Lemma rstrip_idem (s : string) : PyStr.rstrip (PyStr.rstrip s) = PyStr.rstrip s.
Proof.
  induction s as [|c s IH]; [reflexivity|].
  cbn [PyStr.rstrip]. destruct (PyStr.rstrip s) as [|c' r] eqn:Hr.
  - destruct (PyStr.is_space c) eqn:Hc; [reflexivity|].
    cbn [PyStr.rstrip]. rewrite Hc. reflexivity.
  - cbn [PyStr.rstrip] in IH |- *. rewrite IH. reflexivity.
Qed.

Lemma lstrip_rstrip_lstrip (s : string) :
  PyStr.lstrip (PyStr.rstrip (PyStr.lstrip s)) = PyStr.rstrip (PyStr.lstrip s).
Proof.
  induction s as [|c s IH]; [reflexivity|].
  cbn [PyStr.lstrip]. destruct (PyStr.is_space c) eqn:Hc; [exact IH|].
  cbn [PyStr.rstrip]. destruct (PyStr.rstrip s) as [|c' r].
  - rewrite Hc. cbn [PyStr.lstrip]. rewrite Hc. reflexivity.
  - cbn [PyStr.lstrip]. rewrite Hc. reflexivity.
Qed.

Lemma strip_idem (s : string) : PyStr.strip (PyStr.strip s) = PyStr.strip s.
Proof.
  unfold PyStr.strip. rewrite lstrip_rstrip_lstrip. apply rstrip_idem.
Qed.

Lemma normalized_is_normal (s : string) : is_normal (normalized s).
Proof.
  unfold is_normal, normalized. split; [apply lower_idem|].
  unfold PyStr.strip at 1. rewrite lstrip_lower, rstrip_lower.
  fold (PyStr.strip (PyStr.strip s)). rewrite strip_idem. reflexivity.
Qed.

Lemma nth_error_insert_eq {A} (i : nat) (x y : A) (l : list A) :
  nth_error l i = Some y -> nth_error (<[i := x]> l) i = Some x.
Proof.
  revert i. induction l as [|z l IH]; intros [|i]; simpl; try discriminate.
  - reflexivity.
  - apply IH.
Qed.

Lemma position_nth (c : string) (cols : list string) (i : nat) :
  Frame.position c cols = Some i -> nth_error cols i = Some c.
Proof.
  revert i. induction cols as [|x cols IH]; simpl; intros i; [discriminate|].
  destruct (String.eqb_spec x c) as [->|Hne].
  - intros [= <-]. reflexivity.
  - destruct (Frame.position c cols) as [j|]; [|discriminate].
    intros [= <-]. simpl. apply IH. reflexivity.
Qed.

Section PassphraseFacts.

Variable ratio : string -> string -> Z.

Lemma answer_nth (cols : list string) (i : nat) (r : list cell) (s : string) :
  Frame.position Passphrase.ckey cols = Some i ->
  answer cols r = Some s -> nth_error r i = Some (Str s).
Proof.
  unfold answer, Frame.get. intros ->.
  destruct (nth_error r i) as [[s'| |]|]; congruence.
Qed.

Lemma filter_by_passphrase_no_rows
      (df : DataFrame) (i : nat) (passphrase : string) :
  Frame.position Passphrase.ckey (columns df) = Some i ->
  rows df = [] ->
  Passphrase.filter_by_passphrase ratio df passphrase
  = Ok {| columns := []; dtypes := []; rows := [] |}.
Proof.
  intros Hpos Hrows.
  unfold Passphrase.filter_by_passphrase, Passphrase.assign_normalized.
  rewrite Hpos, Hrows. reflexivity.
Qed.

Lemma filter_by_passphrase_ok (df : DataFrame) (i : nat) (passphrase : string) :
  Frame.position Passphrase.ckey (columns df) = Some i ->
  Forall (fun r => answer (columns df) r <> None) (rows df) ->
  rows df <> [] ->
  Passphrase.filter_by_passphrase ratio df passphrase
  = Ok {| columns := columns df;
          dtypes := <[i := dt_object]> (dtypes df);
          rows := omap (validate_record ratio i passphrase (columns df))
                       (rows df) |}.
Proof.
  intros Hpos Hall Hne.
  unfold Passphrase.filter_by_passphrase, Passphrase.assign_normalized.
  rewrite Hpos. cbn [of_option rbind].
  set (g := fun r : list cell =>
              match nth_error r i with
              | Some (Str s) => <[i := Str (normalized s)]> r
              | _ => r
              end).
  rewrite (mapM_ok_map _ g).
  - cbn [rbind columns dtypes rows].
    destruct (map g (rows df)) as [|r0 rs0] eqn:Hmap;
      [destruct (rows df); [congruence|discriminate]|].
    rewrite <- Hmap. clear Hmap r0 rs0 Hne. do 2 f_equal.
    induction Hall as [|r rs Hr _ IH]; [reflexivity|].
    cbn [map List.filter]. rewrite IH. clear IH.
    change (omap ?f (r :: rs)) with
      (match f r with Some y => y :: omap f rs | None => omap f rs end).
    destruct (answer (columns df) r) as [s|] eqn:Hs; [|congruence].
    assert (Hv : validate_record ratio i passphrase (columns df) r
                 = if (FUZZ_THRESHOLD <=? ratio (normalized s) passphrase)%Z
                   then Some (<[i := Str (normalized s)]> r) else None)
      by (unfold validate_record; rewrite Hs; reflexivity).
    rewrite Hv. unfold Passphrase.passes, Frame.get.
    pose proof (answer_nth _ _ _ _ Hpos Hs) as Hnth.
    unfold g at 1 2. rewrite Hpos, Hnth, (nth_error_insert_eq _ _ _ _ Hnth).
    destruct (FUZZ_THRESHOLD <=? ratio (normalized s) passphrase)%Z;
      reflexivity.
  - eapply List.Forall_impl; [|exact Hall]. intros r Hr. simpl in Hr.
    destruct (answer (columns df) r) as [s|] eqn:Hs; [|congruence].
    unfold g. rewrite (answer_nth _ _ _ _ Hpos Hs). reflexivity.
Qed.

(** The rows of the result, with or without rows in the input. *)
Lemma filter_by_passphrase_rows
      (df : DataFrame) (i : nat) (passphrase : string) :
  Frame.position Passphrase.ckey (columns df) = Some i ->
  Forall (fun r => answer (columns df) r <> None) (rows df) ->
  exists out,
    Passphrase.filter_by_passphrase ratio df passphrase = Ok out
    /\ rows out
       = omap (validate_record ratio i passphrase (columns df)) (rows df).
Proof.
  intros Hpos Hall. destruct (rows df) as [|r rs] eqn:Hrows.
  - rewrite (filter_by_passphrase_no_rows df i _ Hpos Hrows).
    eexists. split; reflexivity.
  - rewrite (filter_by_passphrase_ok df i _ Hpos);
      [|rewrite Hrows; exact Hall|rewrite Hrows; discriminate].
    eexists. split; [reflexivity|]. cbn [rows]. rewrite Hrows. reflexivity.
Qed.

(** C3. Over records that carry a text answer, the validator keeps
    exactly the records whose answer, trimmed and lower-cased, scores at
    least 70 against the trimmed, lower-cased key phrase; the kept
    records come in their input order and carry the normalized answer. *)
Theorem filter_by_passphrase_keeps
        (df : DataFrame) (i : nat) (keyphrase : string) :
  Frame.position Passphrase.ckey (columns df) = Some i ->
  Forall (fun r => answer (columns df) r <> None) (rows df) ->
  exists out,
    Passphrase.filter_by_passphrase ratio df (normalized keyphrase) = Ok out
    /\ rows out
       = omap (validate_record ratio i (normalized keyphrase) (columns df))
              (rows df)
    /\ forall r s,
         In r (rows df) -> answer (columns df) r = Some s ->
         (In (<[i := Str (normalized s)]> r) (rows out)
          <-> (70 <= ratio (normalized s) (normalized keyphrase))%Z).
Proof.
  intros Hpos Hall.
  destruct (filter_by_passphrase_rows df i (normalized keyphrase) Hpos Hall)
    as (out & Hout & Hrows).
  exists out. split; [exact Hout|]. split; [exact Hrows|]. rewrite Hrows.
  intros r s Hr Hs. rewrite <- list_elem_of_In, list_elem_of_omap. split.
  - intros (r0 & Hr0 & Hv). unfold validate_record in Hv.
    destruct (answer (columns df) r0) as [s0|] eqn:Hs0; [|discriminate].
    destruct (FUZZ_THRESHOLD <=? ratio (normalized s0) (normalized keyphrase))%Z
      eqn:Hle; [|discriminate].
    injection Hv as Hv.
    assert (Heq : normalized s0 = normalized s).
    { pose proof (nth_error_insert_eq i (Str (normalized s0)) _ _
                    (answer_nth _ _ _ _ Hpos Hs0)) as H0.
      pose proof (nth_error_insert_eq i (Str (normalized s)) _ _
                    (answer_nth _ _ _ _ Hpos Hs)) as H1.
      rewrite Hv in H0. congruence. }
    rewrite <- Heq. apply Z.leb_le in Hle. exact Hle.
  - intros Hle. exists r. split; [apply list_elem_of_In; exact Hr|].
    unfold validate_record. rewrite Hs.
    replace (FUZZ_THRESHOLD <=? ratio (normalized s) (normalized keyphrase))%Z
      with true by (symmetry; apply Z.leb_le; exact Hle).
    reflexivity.
Qed.

End PassphraseFacts.

(** ** Assistance detector *)

Lemma rating_is_numeric (c : string) :
  Signals.matches_any Signals.rating_matches c = true ->
  Signals.matches_any Signals.numeric_matches c = true.
Proof.
  intros H.
  change (Signals.matches_any Signals.numeric_matches c)
    with (PyStr.contains "hours" c
          || Signals.matches_any Signals.rating_matches c).
  rewrite H. apply orb_true_r.
Qed.

Lemma lt_coerce (to_numeric : string -> option Q) (x : cell) :
  Signals.lt 2 (Signals.coerce to_numeric x)
  = Ok match Signals.coerce to_numeric x with
       | Num q => negb (Qle_bool 2 q)
       | _ => false
       end.
Proof.
  destruct x as [s|q|]; simpl; [destruct (to_numeric s)|..]; reflexivity.
Qed.

Lemma any_below_converted (to_numeric : string -> option Q)
      (cols : list string) (r : list cell) :
  let r' := Signals.zip_with_flags (Signals.coerce to_numeric)
              (map (Signals.matches_any Signals.numeric_matches) cols) r in
  exists bs,
    mapM (Signals.lt 2)
         (Frame.select (map (Signals.matches_any Signals.rating_matches) cols) r')
    = Ok bs
    /\ existsb (fun b => b) bs = flagged cols r'.
Proof.
  revert r. induction cols as [|c cols IH]; intros r.
  - exists []. split; reflexivity.
  - destruct r as [|x r].
    + exists []. split; reflexivity.
    + cbn [map Signals.zip_with_flags Frame.select flagged].
      destruct (IH r) as (bs & Hbs & Hex). cbn zeta in Hbs, Hex.
      destruct (Signals.matches_any Signals.rating_matches c) eqn:Hc.
      * rewrite (rating_is_numeric c Hc). cbn [mapM].
        rewrite lt_coerce, Hbs. cbn [rbind].
        eexists. split; [reflexivity|]. cbn [existsb andb]. rewrite Hex.
        reflexivity.
      * exists bs. split; [exact Hbs|]. rewrite Hex. reflexivity.
Qed.

Lemma flagged_needs_help (cols : list string) (r : list cell) :
  flagged cols r = true <-> needs_help cols r.
Proof.
  revert r. induction cols as [|c cols IH]; intros r.
  - split; [discriminate|]. intros (i & name & q & Hi & _). destruct i; discriminate.
  - destruct r as [|x r].
    + split; [discriminate|].
      intros (i & name & q & _ & _ & Hi & _). destruct i; discriminate.
    + cbn [flagged]. rewrite orb_true_iff, andb_true_iff, IH. split.
      * intros [[Hc Hx]|(i & name & q & Hi & Hn & Hr & Hq)].
        -- destruct x as [s|q|]; try discriminate.
           exists 0%nat, c, q. repeat split.
           ++ unfold Signals.matches_any in Hc. apply existsb_exists in Hc.
              exact Hc.
           ++ apply negb_true_iff in Hx. apply Qnot_le_lt. intros Hle.
              apply Qle_bool_iff in Hle. congruence.
        -- exists (S i), name, q. repeat split; assumption.
      * intros (i & name & q & Hi & Hn & Hr & Hq). destruct i as [|i].
        -- left. simpl in Hi, Hr. injection Hi as ->. injection Hr as ->.
           split.
           ++ unfold Signals.matches_any. apply existsb_exists. exact Hn.
           ++ apply negb_true_iff. destruct (Qle_bool 2 q) eqn:Hle; [|reflexivity].
              apply Qle_bool_iff in Hle. exfalso. exact (Qlt_not_le _ _ Hq Hle).
        -- right. exists i, name, q. repeat split; assumption.
Qed.

Lemma identify_converted
      (to_numeric : string -> option Q) (responses : DataFrame) :
  let df := Signals.convert_numeric_cols to_numeric responses in
  Signals.identify_assistance_need df
  = Ok {| columns := columns df;
          dtypes := dtypes df;
          rows := List.filter (flagged (columns df)) (rows df) |}.
Proof.
  intros df. unfold Signals.identify_assistance_need.
  assert (Hmarks : mapM (Signals.any_below
                           (map (Signals.matches_any Signals.rating_matches)
                                (columns df))) (rows df)
                   = Ok (map (flagged (columns df)) (rows df))).
  { apply mapM_ok_map. apply List.Forall_forall. intros r Hr.
    unfold df, Signals.convert_numeric_cols in Hr |- *.
    destruct (rows responses) as [|r0 rs] eqn:Hrows.
    - rewrite Hrows in Hr. contradiction.
    - cbn [rows columns] in Hr |- *.
      apply in_map_iff in Hr. destruct Hr as (r1 & <- & _).
      destruct (any_below_converted to_numeric (columns responses) r1)
        as (bs & Hbs & Hex).
      cbn zeta in Hbs, Hex. unfold Signals.any_below.
      rewrite Hbs. cbn [rbind]. rewrite Hex. reflexivity. }
  rewrite Hmarks. cbn [rbind]. rewrite select_map_filter. reflexivity.
Qed.

(** C6. Over a signal-extracted frame the detector returns, in their
    order, exactly the records in which some rating column holds a
    number strictly below 2; a missing value never counts. *)
Theorem identify_assistance_need_flags
        (to_numeric : string -> option Q) (responses : DataFrame) :
  let df := Signals.convert_numeric_cols to_numeric responses in
  exists out,
    Signals.identify_assistance_need df = Ok out
    /\ columns out = columns df
    /\ rows out = List.filter (flagged (columns df)) (rows df)
    /\ forall r, In r (rows out) <-> In r (rows df) /\ needs_help (columns df) r.
Proof.
  intros df. unfold df. rewrite identify_converted.
  eexists. split; [reflexivity|]. cbn [columns rows].
  split; [reflexivity|]. split; [reflexivity|].
  intros r. rewrite filter_In, flagged_needs_help. reflexivity.
Qed.

(** ** Report aggregator *)


Section ReportFacts.

Variable fsum : list Q -> Q.
Variable fdiv : Q -> Q -> Q.


Lemma means_from_complete (i k : nat) (cols : list string) (dts : list dtype)
      (rs : list (list cell)) (name : string) :
  nth_error cols k = Some name ->
  nth_error dts k = Some dt_number ->
  In (name, Signals.nanmean fsum fdiv (Signals.column_at (i + k) rs))
     (Signals.means_from fsum fdiv i cols dts rs).
Proof.
  revert i k dts. induction cols as [|c cols IH]; intros i k dts Hc Hd.
  - destruct k; discriminate.
  - destruct dts as [|d dts]; [destruct k; discriminate|].
    destruct k as [|k]; simpl in Hc, Hd.
    + injection Hc as ->. injection Hd as ->. rewrite Nat.add_0_r.
      left. reflexivity.
    + cbn [Signals.means_from].
      replace (i + S k)%nat with (S i + k)%nat by lia.
      destruct d; [|right]; apply IH; assumption.
Qed.

Lemma means_from_sound (i : nat) (cols : list string) (dts : list dtype)
      (rs : list (list cell)) (name : string) (m : option Q) :
  In (name, m) (Signals.means_from fsum fdiv i cols dts rs) ->
  exists k,
    nth_error cols k = Some name /\ nth_error dts k = Some dt_number
    /\ m = Signals.nanmean fsum fdiv (Signals.column_at (i + k) rs).
Proof.
  revert i dts. induction cols as [|c cols IH]; intros i dts Hin;
    [contradiction|].
  destruct dts as [|d dts]; [contradiction|].
  cbn [Signals.means_from] in Hin.
  assert (Hrest : In (name, m) (Signals.means_from fsum fdiv (S i) cols dts rs) ->
                  exists k, nth_error (c :: cols) k = Some name
                            /\ nth_error (d :: dts) k = Some dt_number
                            /\ m = Signals.nanmean fsum fdiv
                                     (Signals.column_at (i + k) rs)).
  { intros H. destruct (IH _ _ H) as (k & Hc & Hd & Hm).
    exists (S k). replace (i + S k)%nat with (S i + k)%nat by lia.
    repeat split; assumption. }
  destruct d; [exact (Hrest Hin)|].
  destruct Hin as [Heq|Hin]; [|exact (Hrest Hin)].
  injection Heq as <- <-. exists 0%nat. rewrite Nat.add_0_r.
  repeat split; reflexivity.
Qed.


(** Where the sum and the quotient come out exact, the float mean is the
    arithmetic mean of the values present. *)
Lemma float_mean_exact (col : list cell) :
  (fsum (map Signals.fillna0 col) == fold_right Qplus 0 (present col))%Q ->
  (forall x y, fdiv x y == x / y)%Q ->
  same_mean (float_mean fsum fdiv col) (arithmetic_mean (present col)).
Proof.
  intros Hsum Hdiv. unfold float_mean, arithmetic_mean.
  destruct (present col) as [|q qs]; [exact I|].
  cbn [same_mean]. rewrite Hdiv, Hsum. reflexivity.
Qed.

End ReportFacts.

(** In binary64 the mean of 2, a missing value and 4 is exactly 3. *)
Example mean_skips_missing :
  Signals.nanmean Binary64.sum Binary64.div [Num 2; NaN; Num 4] = Some 3%Q.
Proof. vm_compute. reflexivity. Qed.

Example mean_of_nothing (fsum : list Q -> Q) (fdiv : Q -> Q -> Q) :
  Signals.nanmean fsum fdiv [NaN; NaN] = None.
Proof. reflexivity. Qed.


(** ** The normalized answer downstream *)

Lemma zip_with_flags_nth {A} (f : A -> A) (flags : list bool) (xs : list A)
      (i : nat) :
  nth_error flags i = Some false ->
  nth_error (Signals.zip_with_flags f flags xs) i = nth_error xs i.
Proof.
  revert flags xs. induction i as [|i IH]; intros [|b flags] [|x xs] H;
    try discriminate; try reflexivity.
  - simpl in H. injection H as ->. reflexivity.
  - simpl in H |- *. apply IH. exact H.
Qed.

Lemma convert_keeps_answer (to_numeric : string -> option Q)
      (df : DataFrame) (i : nat) (r' : list cell) :
  Frame.position Passphrase.ckey (columns df) = Some i ->
  In r' (rows (Signals.convert_numeric_cols to_numeric df)) ->
  exists r, In r (rows df) /\ nth_error r' i = nth_error r i.
Proof.
  intros Hpos Hin. unfold Signals.convert_numeric_cols in Hin.
  destruct (rows df) as [|r0 rs] eqn:Hrows.
  - rewrite Hrows in Hin. contradiction.
  - cbn [rows] in Hin. apply in_map_iff in Hin. destruct Hin as (r & <- & Hr).
    exists r. split; [exact Hr|]. apply zip_with_flags_nth.
    rewrite nth_error_map, (position_nth _ _ _ Hpos). reflexivity.
Qed.

(** C10. Every record the validator returns holds the trimmed,
    lower-cased answer in place of the original text, and so does every
    record of the converted table that is written out and of the
    assistance listing taken from it. *)
Theorem filter_by_passphrase_overwrites
        (ratio : string -> string -> Z) (to_numeric : string -> option Q)
        (df : DataFrame) (i : nat) (passphrase : string) :
  Frame.position Passphrase.ckey (columns df) = Some i ->
  Forall (fun r => answer (columns df) r <> None) (rows df) ->
  exists out support,
    Passphrase.filter_by_passphrase ratio df passphrase = Ok out
    /\ Signals.identify_assistance_need
         (Signals.convert_numeric_cols to_numeric out) = Ok support
    /\ (forall r', In r' (rows out) ->
                   exists r s, In r (rows df)
                               /\ answer (columns df) r = Some s
                               /\ r' = <[i := Str (normalized s)]> r)
    /\ Forall (normalized_answer_of df i) (rows out)
    /\ Forall (normalized_answer_of df i)
         (rows (Signals.convert_numeric_cols to_numeric out))
    /\ Forall (normalized_answer_of df i) (rows support)
    /\ forall s, is_normal (normalized s).
Proof.
  intros Hpos Hall.
  assert (Hcase : rows df = [] \/ rows df <> [])
    by (destruct (rows df); [left; reflexivity|right; discriminate]).
  destruct Hcase as [Hnil|Hne].
  { rewrite (filter_by_passphrase_no_rows ratio df i _ Hpos Hnil).
    eexists. eexists. split; [reflexivity|].
    split; [apply identify_converted|]. cbn.
    repeat (split; [first [constructor | intros ? []]|]).
    exact normalized_is_normal. }
  rewrite (filter_by_passphrase_ok ratio df i _ Hpos Hall Hne).
  set (out := {| columns := columns df |}).
  assert (Hout : forall r', In r' (rows out) ->
                 exists r s, In r (rows df)
                             /\ answer (columns df) r = Some s
                             /\ r' = <[i := Str (normalized s)]> r).
  { intros r' Hr'. cbn [rows out] in Hr'.
    apply list_elem_of_In, list_elem_of_omap in Hr'.
    destruct Hr' as (r & Hr & Hv). apply list_elem_of_In in Hr.
    unfold validate_record in Hv.
    destruct (answer (columns df) r) as [s|] eqn:Hs; [|discriminate].
    destruct (FUZZ_THRESHOLD <=? ratio (normalized s) passphrase)%Z;
      [|discriminate].
    injection Hv as <-. exists r, s. repeat split; assumption. }
  assert (Hnorm : Forall (normalized_answer_of df i) (rows out)).
  { apply List.Forall_forall. intros r' Hr'.
    destruct (Hout r' Hr') as (r & s & Hr & Hs & ->).
    exists r, s. repeat split; try assumption.
    exact (nth_error_insert_eq _ _ _ _ (answer_nth _ _ _ _ Hpos Hs)). }
  assert (Htable : Forall (normalized_answer_of df i)
                     (rows (Signals.convert_numeric_cols to_numeric out))).
  { apply List.Forall_forall. intros r' Hr'.
    destruct (convert_keeps_answer to_numeric out i r' Hpos Hr')
      as (r0 & Hr0 & Heq).
    rewrite List.Forall_forall in Hnorm.
    destruct (Hnorm r0 Hr0) as (r & s & Hr & Hs & Hcell).
    exists r, s. repeat split; try assumption. congruence. }
  exists out. eexists. split; [reflexivity|].
  split; [apply identify_converted|].
  split; [exact Hout|]. split; [exact Hnorm|]. split; [exact Htable|].
  split; [|exact normalized_is_normal].
  cbn [rows]. apply List.Forall_forall. intros r' Hr'.
  apply filter_In in Hr'. rewrite List.Forall_forall in Htable.
  apply Htable, Hr'.
Qed.

(** ** Roster reconciler *)

Lemma add_calls_nil (w : Canvas.world) : add_calls [] w = w.
Proof. destruct w. unfold add_calls. simpl. rewrite app_nil_r. reflexivity. Qed.

Lemma add_calls_app (cs1 cs2 : list Canvas.call) (w : Canvas.world) :
  add_calls cs2 (add_calls cs1 w) = add_calls (cs1 ++ cs2) w.
Proof. unfold add_calls. simpl. rewrite app_assoc. reflexivity. Qed.

Section CanvasFacts.

Variable provider : list Canvas.call -> Canvas.call -> bool.

Lemma each_row_post_all (score : Z) (l : list Canvas.profile)
      (w : Canvas.world) :
  Canvas.each_row (fun x => Canvas.set_score provider x score) l w
  = post_all provider (map (fun u => (Canvas.Enrolled u, score)) l) w.
Proof.
  revert w. induction l as [|u l IH]; intros w; [reflexivity|].
  cbn [Canvas.each_row map post_all enrolled_call fst snd].
  unfold Canvas.mseq.
  destruct (Canvas.set_score provider (Canvas.Enrolled u) score w)
    as [[[]|e] w']; [apply IH | reflexivity].
Qed.

Lemma apply_rows_post_all (score : Z) (l : list Canvas.profile)
      (w : Canvas.world) :
  Canvas.apply_rows (fun x => Canvas.set_score provider x score) l w
  = post_all provider (graded score l) w.
Proof.
  destruct l as [|u l]; [reflexivity|].
  unfold Canvas.apply_rows, graded. apply each_row_post_all.
Qed.

Lemma post_all_app (ds1 ds2 : list Canvas.call) (w : Canvas.world) :
  post_all provider (ds1 ++ ds2) w
  = Canvas.mseq (post_all provider ds1) (fun _ => post_all provider ds2) w.
Proof.
  revert w. induction ds1 as [|d ds1 IH]; intros w; [reflexivity|].
  cbn [app post_all]. unfold Canvas.mseq.
  destruct ((if enrolled_call d
             then Canvas.set_score provider (fst d) (snd d)
             else Canvas.ignoring
                    (Canvas.set_score provider (fst d) (snd d))) w)
    as [[[]|e] w']; [|reflexivity].
  rewrite IH. reflexivity.
Qed.

(** Without an enrolled student the upload raises before any call. *)
Lemma canvas_upload_no_roster (df : DataFrame) (w : Canvas.world) :
  Canvas.canvas_upload provider [] df w = (Raise KeyError, w).
Proof. reflexivity. Qed.

Lemma canvas_upload_post_all (uids : list Canvas.profile) (df : DataFrame)
      (emails : list cell) (w : Canvas.world) :
  uids <> [] ->
  Canvas.column "respondentEmail" df = Ok emails ->
  Canvas.canvas_upload provider uids df w
  = post_all provider (upload_calls uids emails) w.
Proof.
  intros Hne Hcol. destruct uids as [|u0 uids]; [congruence|].
  unfold Canvas.canvas_upload, upload_calls.
  rewrite post_all_app. unfold Canvas.mseq at 1, Canvas.lift.
  rewrite Hcol. unfold Canvas.mseq. rewrite apply_rows_post_all.
  destruct (post_all provider _ w) as [[[]|e] w']; [|reflexivity].
  apply apply_rows_post_all.
Qed.

(** One call: the log grows by the call, whatever the provider says. *)
Lemma set_score_log (s : Canvas.student) (score : Z) (w : Canvas.world) :
  Canvas.set_score provider s score w
  = (if provider (Canvas.calls w) (s, score)
     then Ok tt else Raise ProviderError,
     add_calls [(s, score)] w).
Proof.
  unfold Canvas.set_score, add_calls.
  destruct (provider (Canvas.calls w) (s, score)); reflexivity.
Qed.

(** Posting stops at the first call on an enrolled student that the
    provider refuses. *)
Lemma post_all_fail (before after : list Canvas.call) (d : Canvas.call)
      (w : Canvas.world) :
  (forall b1 c b2, before = b1 ++ c :: b2 -> enrolled_call c = true ->
                   provider (Canvas.calls w ++ b1) c = true) ->
  enrolled_call d = true ->
  provider (Canvas.calls w ++ before) d = false ->
  post_all provider (before ++ d :: after) w
  = (Raise ProviderError, add_calls (before ++ [d]) w).
Proof.
  revert w. induction before as [|c before IH]; intros w Hok He Hd.
  - cbn [app post_all]. rewrite He. unfold Canvas.mseq.
    rewrite set_score_log. rewrite app_nil_r in Hd. destruct d as [u sc].
    cbn [fst snd]. rewrite Hd. reflexivity.
  - cbn [app post_all]. unfold Canvas.mseq, Canvas.ignoring.
    assert (Hstep : (if enrolled_call c
                     then Canvas.set_score provider (fst c) (snd c)
                     else fun w0 =>
                            (Ok tt,
                             snd (Canvas.set_score provider (fst c) (snd c) w0)))
                      w
                    = (Ok tt, add_calls [c] w)).
    { destruct (enrolled_call c) eqn:Hc; rewrite set_score_log;
        destruct c as [u sc]; cbn [fst snd]; [|reflexivity].
      pose proof (Hok [] (u, sc) before eq_refl Hc) as Hp.
      rewrite app_nil_r in Hp. rewrite Hp. reflexivity. }
    rewrite Hstep, IH.
    + rewrite add_calls_app. reflexivity.
    + intros b1 c' b2 -> Hc'. cbn [add_calls Canvas.calls].
      rewrite <- app_assoc. apply (Hok (c :: b1) c' b2); [reflexivity|exact Hc'].
    + exact He.
    + cbn [add_calls Canvas.calls]. rewrite <- app_assoc. exact Hd.
Qed.

(** Every call is made when the provider refuses no enrolled student. *)
Lemma post_all_ok (ds : list Canvas.call) (w : Canvas.world) :
  (forall b1 c b2, ds = b1 ++ c :: b2 -> enrolled_call c = true ->
                   provider (Canvas.calls w ++ b1) c = true) ->
  post_all provider ds w = (Ok tt, add_calls ds w).
Proof.
  revert w. induction ds as [|c ds IH]; intros w Hok.
  - rewrite add_calls_nil. reflexivity.
  - cbn [post_all]. unfold Canvas.mseq, Canvas.ignoring.
    assert (Hstep : (if enrolled_call c
                     then Canvas.set_score provider (fst c) (snd c)
                     else fun w0 =>
                            (Ok tt,
                             snd (Canvas.set_score provider (fst c) (snd c) w0)))
                      w
                    = (Ok tt, add_calls [c] w)).
    { destruct (enrolled_call c) eqn:Hc; rewrite set_score_log;
        destruct c as [u sc]; cbn [fst snd]; [|reflexivity].
      pose proof (Hok [] (u, sc) ds eq_refl Hc) as Hp.
      rewrite app_nil_r in Hp. rewrite Hp. reflexivity. }
    rewrite Hstep, IH.
    + rewrite add_calls_app. reflexivity.
    + intros b1 c' b2 -> Hc'. cbn [add_calls Canvas.calls].
      rewrite <- app_assoc. apply (Hok (c :: b1) c' b2); [reflexivity|exact Hc'].
Qed.

Lemma isin_In (login : string) (emails : list cell) :
  Canvas.isin login emails = true <-> In (Str login) emails.
Proof.
  unfold Canvas.isin. rewrite existsb_exists. split.
  - intros ([s'|q|] & Hin & Heq); try discriminate.
    apply String.eqb_eq in Heq. subst. exact Hin.
  - intros Hin. exists (Str login). split; [exact Hin | apply String.eqb_refl].
Qed.

Lemma partition_perm {A} (f : A -> bool) (l : list A) :
  Permutation (List.filter (fun x => negb (f x)) l ++ List.filter f l) l.
Proof.
  induction l as [|x l IH]; simpl; [constructor|].
  destruct (f x); simpl.
  - symmetry. apply Permutation_cons_app. symmetry. exact IH.
  - apply perm_skip, IH.
Qed.

Lemma decisions_roster (uids : list Canvas.profile) (emails : list cell) :
  Permutation (map fst (decisions uids emails)) (map Canvas.Enrolled uids).
Proof.
  unfold decisions. rewrite map_app, !map_map. cbn [fst].
  rewrite <- map_app. apply Permutation_map, partition_perm.
Qed.

Lemma decisions_score (uids : list Canvas.profile) (emails : list cell)
      (u : Canvas.profile) (score : Z) :
  In (Canvas.Enrolled u, score) (decisions uids emails) ->
  (score = 1%Z /\ In (Str (Canvas.login_id u)) emails)
  \/ (score = 0%Z /\ ~ In (Str (Canvas.login_id u)) emails).
Proof.
  unfold decisions. rewrite in_app_iff, !in_map_iff.
  intros [(u' & Heq & Hin)|(u' & Heq & Hin)]; injection Heq as -> <-;
    apply filter_In in Hin; destruct Hin as [_ Hin].
  - right. split; [reflexivity|]. rewrite <- isin_In.
    apply negb_true_iff in Hin. congruence.
  - left. split; [reflexivity|]. apply isin_In, Hin.
Qed.

Lemma graded_enrolled (score : Z) (l : list Canvas.profile) :
  List.filter enrolled_call (graded score l)
  = map (fun u => (Canvas.Enrolled u, score)) l.
Proof.
  destruct l as [|u0 l]; [reflexivity|]. unfold graded.
  generalize (u0 :: l). intros l'. induction l' as [|u l' IH]; [reflexivity|].
  cbn [map List.filter enrolled_call fst]. rewrite IH. reflexivity.
Qed.

(** The calls on enrolled students are the decisions. *)
Lemma upload_calls_enrolled (uids : list Canvas.profile) (emails : list cell) :
  List.filter enrolled_call (upload_calls uids emails) = decisions uids emails.
Proof.
  unfold upload_calls, decisions.
  rewrite List.filter_app, !graded_enrolled. reflexivity.
Qed.



Section RunFacts.

Variable to_datetime : string -> option Z.
Variable ratio : string -> string -> Z.
Variable to_numeric : string -> option Q.
Variable fsum : list Q -> Q.
Variable fdiv : Q -> Q -> Q.

Lemma main_after_validation
      (responses : DataFrame) (q_titles : gmap string string)
      (uids : list Canvas.profile) (date keyphrase : string)
      (table support : DataFrame) (listed : list cell) (w : Canvas.world) :
  validated to_datetime ratio to_numeric responses q_titles date keyphrase
  = Ok table ->
  Signals.identify_assistance_need table = Ok support ->
  Canvas.column "respondentEmail" support = Ok listed ->
  main to_datetime ratio to_numeric fsum fdiv provider responses q_titles
       uids date keyphrase w
  = Canvas.mseq
      (Canvas.canvas_upload provider uids table)
      (fun _ => write_out table)
      {| Canvas.calls := Canvas.calls w;
         Canvas.printed := Some listed;
         Canvas.report_csv := Some (Signals.report fsum fdiv table);
         Canvas.out_csv := Canvas.out_csv w |}.
Proof.
  intros Hv Hs Hl. unfold main.
  unfold Canvas.mseq at 1, Canvas.lift at 1. rewrite Hv.
  unfold Canvas.mseq at 1, write_report.
  unfold Canvas.mseq at 1, Canvas.lift at 1. rewrite Hs.
  unfold Canvas.mseq at 1, Canvas.lift at 1. rewrite Hl.
  unfold Canvas.mseq at 1, print_support. reflexivity.
Qed.

(** X27. The run over a roster that is not empty, with a provider that
    refuses no enrolled student: every call of the upload is made, in
    order, and the table is written after the report and the listing. *)
Theorem main_completes
      (responses : DataFrame) (q_titles : gmap string string)
      (uids : list Canvas.profile) (date keyphrase : string)
      (table support : DataFrame) (listed emails : list cell) :
  validated to_datetime ratio to_numeric responses q_titles date keyphrase
  = Ok table ->
  Signals.identify_assistance_need table = Ok support ->
  Canvas.column "respondentEmail" support = Ok listed ->
  Canvas.column "respondentEmail" table = Ok emails ->
  uids <> [] ->
  (forall log c, enrolled_call c = true -> provider log c = true) ->
  main to_datetime ratio to_numeric fsum fdiv provider responses q_titles
       uids date keyphrase Canvas.empty_world
  = (Ok tt,
     {| Canvas.calls := upload_calls uids emails;
        Canvas.printed := Some listed;
        Canvas.report_csv := Some (Signals.report fsum fdiv table);
        Canvas.out_csv := Some table |}).
Proof.
  intros Hv Hs Hl He Hne Hok.
  rewrite (main_after_validation _ _ _ _ _ _ _ _ _ Hv Hs Hl).
  unfold Canvas.mseq.
  rewrite (canvas_upload_post_all uids table emails _ Hne He).
  rewrite post_all_ok by (intros b1 c b2 _ Hc; apply Hok, Hc). reflexivity.
Qed.

(** C8 (amended). A provider failure on one roster entry ends the run:
    the calls before it were made, the failing entry is the last call,
    no entry after it is attempted, the run ends with the provider's
    error and the output table is not written. *)
Theorem main_stops_at_failure
        (responses : DataFrame) (q_titles : gmap string string)
        (uids : list Canvas.profile) (date keyphrase : string)
        (table support : DataFrame) (listed emails : list cell)
        (before after : list Canvas.call) (u : Canvas.profile) (score : Z) :
  validated to_datetime ratio to_numeric responses q_titles date keyphrase
  = Ok table ->
  Signals.identify_assistance_need table = Ok support ->
  Canvas.column "respondentEmail" support = Ok listed ->
  Canvas.column "respondentEmail" table = Ok emails ->
  upload_calls uids emails = before ++ (Canvas.Enrolled u, score) :: after ->
  (forall b1 c b2, before = b1 ++ c :: b2 -> enrolled_call c = true ->
                   provider b1 c = true) ->
  provider before (Canvas.Enrolled u, score) = false ->
  main to_datetime ratio to_numeric fsum fdiv provider responses q_titles
       uids date keyphrase Canvas.empty_world
  = (Raise ProviderError,
     {| Canvas.calls := before ++ [(Canvas.Enrolled u, score)];
        Canvas.printed := Some listed;
        Canvas.report_csv := Some (Signals.report fsum fdiv table);
        Canvas.out_csv := None |}).
Proof.
  intros Hv Hs Hl He Hd Hok Hfail.
  assert (Hne : uids <> []).
  { intros ->. destruct before as [|c1 [|c2 [|c3 before]]];
      discriminate Hd. }
  rewrite (main_after_validation _ _ _ _ _ _ _ _ _ Hv Hs Hl).
  unfold Canvas.mseq.
  rewrite (canvas_upload_post_all uids table emails _ Hne He), Hd.
  rewrite post_all_fail; [reflexivity | exact Hok | reflexivity | exact Hfail].
Qed.

End RunFacts.

End CanvasFacts.


(** The same upload, evaluated: three calls for a roster of two; and a
    roster without entry makes the upload raise. *)
Example sample_upload_all_present :
  Canvas.canvas_upload Sample.accepts_all [Sample.alice; Sample.bob]
                       Sample.table Canvas.empty_world
  = (Ok tt,
     {| Canvas.calls := [(Canvas.AllNaN, 0%Z);
                         (Canvas.Enrolled Sample.alice, 1%Z);
                         (Canvas.Enrolled Sample.bob, 1%Z)];
        Canvas.printed := None;
        Canvas.report_csv := None;
        Canvas.out_csv := None |})
  /\ Canvas.canvas_upload Sample.accepts_all [] Sample.table
                          Canvas.empty_world
     = (Raise KeyError, Canvas.empty_world).
Proof. split; vm_compute; reflexivity. Qed.

Example sample_validated :
  validated Iso8601.parse Sample.same_text Sample.whole_number
            Sample.responses Sample.q_titles "2023-01-10" " Graphs"
  = Ok Sample.table.
Proof. vm_compute. reflexivity. Qed.

Lemma main_stops_at_failure_witness :
  main Iso8601.parse Sample.same_text Sample.whole_number
       Binary64.sum Binary64.div
       (Sample.refuses "d@x.edu") Sample.responses Sample.q_titles
       Sample.roster "2023-01-10" " Graphs" Canvas.empty_world
  = (Raise ProviderError,
     {| Canvas.calls := [(Canvas.Enrolled Sample.eve, 0%Z);
                         (Canvas.Enrolled Sample.dan, 0%Z)];
        Canvas.printed := Some [Str "a@x.edu"];
        Canvas.report_csv :=
          Some (Signals.report Binary64.sum Binary64.div Sample.table);
        Canvas.out_csv := None |}).
Proof.
  apply (main_stops_at_failure (Sample.refuses "d@x.edu")
           Iso8601.parse Sample.same_text Sample.whole_number
           Binary64.sum Binary64.div
           Sample.responses Sample.q_titles Sample.roster
           "2023-01-10" " Graphs" Sample.table
           {| columns := columns Sample.table;
              dtypes := dtypes Sample.table;
              rows := [[Str "r1"; Str "2023-01-10T19:30:00Z";
                        Str "2023-01-10T19:30:00Z"; Str "a@x.edu";
                        Str "graphs"; Num 1]] |}
           [Str "a@x.edu"]
           [Str "b@x.edu"; Str "a@x.edu"; Str "c@x.edu"]
           [(Canvas.Enrolled Sample.eve, 0%Z)]
           [(Canvas.Enrolled Sample.alice, 1%Z);
            (Canvas.Enrolled Sample.bob, 1%Z)]
           Sample.dan 0%Z).
  - vm_compute. reflexivity.
  - vm_compute. reflexivity.
  - reflexivity.
  - reflexivity.
  - reflexivity.
  - intros b1 c b2 H _. destruct b1 as [|c1 [|c2 b1]]; try discriminate H.
    injection H as <- _. reflexivity.
  - reflexivity.
Defined.

(** C8, as stated, fails: the provider fails for the first entry that is
    decided, Eve; the run ends with that error, Dan, Alice and Bob get no
    attempt and the output table is not written. *)
Lemma main_ends_at_first_failure :
  main Iso8601.parse Sample.same_text Sample.whole_number
       Binary64.sum Binary64.div
       (Sample.refuses "e@x.edu") Sample.responses Sample.q_titles
       Sample.roster "2023-01-10" " Graphs" Canvas.empty_world
  = (Raise ProviderError,
     {| Canvas.calls := [(Canvas.Enrolled Sample.eve, 0%Z)];
        Canvas.printed := Some [Str "a@x.edu"];
        Canvas.report_csv := Some [("Understanding", Some (5 # 2)%Q)];
        Canvas.out_csv := None |})
  /\ Sample.roster = [Sample.alice; Sample.bob; Sample.eve; Sample.dan].
Proof. split; [vm_compute; reflexivity | reflexivity]. Qed.

(** ** The theorems at the sample run *)

Lemma filter_by_passphrase_keeps_witness :
  exists out,
    Passphrase.filter_by_passphrase Sample.same_text Sample.of_the_day
      (normalized " Graphs") = Ok out
    /\ rows out
       = omap (validate_record Sample.same_text 4 (normalized " Graphs")
                 (columns Sample.of_the_day))
              (rows Sample.of_the_day)
    /\ forall r s,
         In r (rows Sample.of_the_day) ->
         answer (columns Sample.of_the_day) r = Some s ->
         (In (<[4%nat := Str (normalized s)]> r) (rows out)
          <-> (70 <= Sample.same_text (normalized s) (normalized " Graphs"))%Z).
Proof.
  apply (filter_by_passphrase_keeps Sample.same_text Sample.of_the_day 4
           " Graphs").
  - reflexivity.
  - repeat (apply List.Forall_cons; [vm_compute; discriminate|]).
    apply List.Forall_nil.
Defined.

Lemma filter_by_passphrase_overwrites_witness :
  exists out support,
    Passphrase.filter_by_passphrase Sample.same_text Sample.of_the_day
      "graphs" = Ok out
    /\ Signals.identify_assistance_need
         (Signals.convert_numeric_cols Sample.whole_number out) = Ok support
    /\ (forall r', In r' (rows out) ->
                   exists r s, In r (rows Sample.of_the_day)
                               /\ answer (columns Sample.of_the_day) r = Some s
                               /\ r' = <[4%nat := Str (normalized s)]> r)
    /\ Forall (normalized_answer_of Sample.of_the_day 4) (rows out)
    /\ Forall (normalized_answer_of Sample.of_the_day 4)
         (rows (Signals.convert_numeric_cols Sample.whole_number out))
    /\ Forall (normalized_answer_of Sample.of_the_day 4) (rows support)
    /\ forall s, is_normal (normalized s).
Proof.
  apply (filter_by_passphrase_overwrites Sample.same_text Sample.whole_number
           Sample.of_the_day 4 "graphs").
  - reflexivity.
  - repeat (apply List.Forall_cons; [vm_compute; discriminate|]).
    apply List.Forall_nil.
Defined.

Example sample_normalized : normalized "  Graphs " = "graphs".
Proof. reflexivity. Qed.

Example sample_filter_by_passphrase :
  option_map rows
    (match Passphrase.filter_by_passphrase Sample.same_text
             Sample.of_the_day "graphs" with
     | Ok out => Some out
     | Raise _ => None
     end)
  = Some [<[4%nat := Str "graphs"]> Sample.r2;
          <[4%nat := Str "graphs"]> Sample.r1;
          <[4%nat := Str "graphs"]> Sample.r3].
Proof. vm_compute. reflexivity. Qed.


Lemma identify_assistance_need_flags_witness :
  exists out,
    Signals.identify_assistance_need
      (Signals.convert_numeric_cols Sample.whole_number Sample.table) = Ok out
    /\ columns out
       = columns (Signals.convert_numeric_cols Sample.whole_number Sample.table)
    /\ rows out
       = List.filter
           (flagged (columns (Signals.convert_numeric_cols
                                Sample.whole_number Sample.table)))
           (rows (Signals.convert_numeric_cols Sample.whole_number Sample.table))
    /\ forall r,
         In r (rows out)
         <-> In r (rows (Signals.convert_numeric_cols
                           Sample.whole_number Sample.table))
             /\ needs_help
                  (columns (Signals.convert_numeric_cols
                              Sample.whole_number Sample.table)) r.
Proof.
  exact (identify_assistance_need_flags Sample.whole_number Sample.table).
Defined.

Example sample_support :
  Signals.identify_assistance_need Sample.table
  = Ok {| columns := columns Sample.table;
          dtypes := dtypes Sample.table;
          rows := [[Str "r1"; Str "2023-01-10T19:30:00Z";
                    Str "2023-01-10T19:30:00Z"; Str "a@x.edu";
                    Str "graphs"; Num 1]] |}.
Proof. vm_compute. reflexivity. Qed.

Example sample_report :
  Signals.report Binary64.sum Binary64.div Sample.table
  = [("Understanding", Some (5 # 2)%Q)].
Proof. vm_compute. reflexivity. Qed.

(** ** Which columns the report covers after the conversion *)

Lemma zip_with_flags_set {A} (x : A) (flags : list bool) (xs : list A)
      (k : nat) (y : A) :
  nth_error flags k = Some true ->
  nth_error xs k = Some y ->
  nth_error (Signals.zip_with_flags (fun _ => x) flags xs) k = Some x.
Proof.
  revert flags xs. induction k as [|k IH]; intros [|b flags] [|z xs] Hf Hx;
    try discriminate.
  - simpl in Hf. injection Hf as ->. reflexivity.
  - simpl in Hf, Hx |- *. apply IH; assumption.
Qed.

(** X28. Over a frame with at least one row, a column whose name
    contains one of the substrings of [convert_numeric_cols] is of numeric
    dtype after the conversion, and so has its mean in the report. *)
Lemma converted_column_reported
      (to_numeric : string -> option Q)
      (fsum : list Q -> Q) (fdiv : Q -> Q -> Q) (df : DataFrame) (k : nat)
      (name : string) (d : dtype) :
  rows df <> [] ->
  nth_error (columns df) k = Some name ->
  nth_error (dtypes df) k = Some d ->
  Signals.matches_any Signals.numeric_matches name = true ->
  exists m,
    In (name, m)
       (Signals.report fsum fdiv
          (Signals.convert_numeric_cols to_numeric df)).
Proof.
  intros Hrows Hc Hd Hm. eexists. unfold Signals.report.
  apply (means_from_complete fsum fdiv 0 k).
  - unfold Signals.convert_numeric_cols.
    destruct (rows df); [congruence | exact Hc].
  - unfold Signals.convert_numeric_cols.
    destruct (rows df); [congruence|]. cbn [dtypes].
    apply (zip_with_flags_set dt_number _ _ _ d); [|exact Hd].
    rewrite nth_error_map, Hc. cbn [option_map]. rewrite Hm. reflexivity.
Qed.

(** * Further properties of the code *)

(** ** The form body *)

Lemma fold_add_item_raise (items : list FormBody.item) (e : exn) :
  fold_left FormBody.add_item items (Raise e) = Raise e.
Proof. induction items as [|x items IH]; simpl; [reflexivity | exact IH]. Qed.

Lemma get_question_ids_snoc (items : list FormBody.item) (x : FormBody.item) :
  FormBody.get_question_ids (items ++ [x])
  = FormBody.add_item (FormBody.get_question_ids items) x.
Proof. unfold FormBody.get_question_ids. rewrite fold_left_app. reflexivity. Qed.

(** X1. Building the title dictionary raises [KeyError] exactly when some
    item of the form body is no question or has no title. *)
Theorem get_question_ids_raises (items : list FormBody.item) :
  FormBody.get_question_ids items = Raise KeyError
  <-> exists x, In x items
                /\ (FormBody.questionId x = None \/ FormBody.title x = None).
Proof.
  induction items as [|x items IH] using rev_ind.
  - split; [discriminate|]. intros (x & [] & _).
  - rewrite get_question_ids_snoc. unfold FormBody.add_item.
    destruct (FormBody.get_question_ids items) as [q|e] eqn:Hq; cbn [rbind].
    + destruct (FormBody.questionId x) as [k|] eqn:Hk; cbn [of_option rbind].
      * destruct (FormBody.title x) as [t|] eqn:Ht; cbn [of_option rbind].
        -- split; [discriminate|]. intros (y & Hy & Hbad).
           apply in_app_or in Hy. destruct Hy as [Hy|[<-|[]]].
           ++ assert (Hr : Ok q = Raise KeyError :> result (gmap string string))
                by (apply IH; exists y; auto).
              discriminate Hr.
           ++ destruct Hbad; congruence.
        -- split; [|reflexivity]. intros _. exists x.
           split; [apply in_or_app; right; left; reflexivity | auto].
      * split; [|reflexivity]. intros _. exists x.
        split; [apply in_or_app; right; left; reflexivity | auto].
    + split.
      * intros He. injection He as ->. destruct (proj1 IH eq_refl) as (y & Hy & Hbad).
        exists y. split; [apply in_or_app; left; exact Hy | exact Hbad].
      * intros _. f_equal.
        assert (Hany : forall l, FormBody.get_question_ids l = Raise e ->
                                 e = KeyError).
        { clear. intros l. induction l as [|z l IHl] using rev_ind.
          - discriminate.
          - rewrite get_question_ids_snoc. unfold FormBody.add_item.
            destruct (FormBody.get_question_ids l) as [q|e']; cbn [rbind].
            + destruct (FormBody.questionId z); cbn [of_option rbind];
                [|congruence].
              destruct (FormBody.title z); cbn [of_option rbind]; congruence.
            + intros [= ->]. apply IHl. reflexivity. }
        exact (Hany items Hq).
Qed.

(** X2. When every item is a titled question and no identifier occurs
    twice, the dictionary maps an identifier to a title exactly when the
    form body holds that question under that title. *)
Theorem get_question_ids_lookup (items : list FormBody.item) :
  Forall (fun x => FormBody.questionId x <> None /\ FormBody.title x <> None)
         items ->
  List.NoDup (map FormBody.questionId items) ->
  exists q,
    FormBody.get_question_ids items = Ok q
    /\ forall i t,
         q !! i = Some t
         <-> In {| FormBody.title := Some t; FormBody.questionId := Some i |}
                items.
Proof.
  induction items as [|x items IH] using rev_ind; intros Hall Hnd.
  - exists ∅. split; [reflexivity|]. intros i t. rewrite lookup_empty.
    split; [discriminate | intros []].
  - apply Forall_app in Hall. destruct Hall as [Hall Hx].
    inversion Hx as [|? ? [Hk Ht] _]; subst.
    rewrite map_app in Hnd. cbn [map] in Hnd.
    pose proof (NoDup_remove_2 _ _ _ Hnd) as Hfresh. rewrite app_nil_r in Hfresh.
    apply NoDup_remove_1 in Hnd. rewrite app_nil_r in Hnd.
    destruct (IH Hall Hnd) as (q & Hq & Hlook).
    destruct x as [[t0|] [k0|]]; cbn in Hk, Ht; try congruence.
    cbn [FormBody.questionId] in Hfresh.
    exists (<[k0 := t0]> q). split.
    + rewrite get_question_ids_snoc, Hq. reflexivity.
    + intros i t. rewrite in_app_iff. cbn [In].
      destruct (decide (k0 = i)) as [->|Hne].
      * rewrite lookup_insert_eq. split.
        -- intros [= ->]. right. left. reflexivity.
        -- intros [Hin|[[= ->]|[]]]; [|reflexivity].
           exfalso. apply Hfresh. apply in_map_iff.
           eexists. split; [|exact Hin]. reflexivity.
      * rewrite lookup_insert_ne by exact Hne. rewrite Hlook. split.
        -- intros Hin. left. exact Hin.
        -- intros [Hin|[[= _ Hk']|[]]]; [exact Hin | congruence].
Qed.

(** X3. A form body with an item that is no question (a section header,
    a text block) makes [get_attendance] raise [KeyError], however well
    the responses are formed. *)
Theorem get_attendance_body_raises
        (responses : DataFrame) (items : list FormBody.item)
        (cleaned : DataFrame * list string) (x : FormBody.item) :
  AttendanceForm.clean_column_index responses = Ok cleaned ->
  In x items ->
  FormBody.questionId x = None ->
  FormBody.get_attendance responses items = Raise KeyError.
Proof.
  intros Hc Hin Hx. unfold FormBody.get_attendance. rewrite Hc.
  cbn [rbind]. destruct cleaned as [df keys].
  assert (Hq : FormBody.get_question_ids items = Raise KeyError).
  { apply get_question_ids_raises. exists x. auto. }
  rewrite Hq. reflexivity.
Qed.

(** The two renderings of [get_attendance] agree once the dictionary is
    built. *)
Lemma get_attendance_body_ok
      (responses : DataFrame) (items : list FormBody.item)
      (q_titles : gmap string string) :
  FormBody.get_question_ids items = Ok q_titles ->
  FormBody.get_attendance responses items
  = AttendanceForm.get_attendance responses q_titles.
Proof.
  intros Hq. unfold FormBody.get_attendance, AttendanceForm.get_attendance.
  destruct (AttendanceForm.clean_column_index responses) as [[df keys]|e];
    cbn [rbind]; [|reflexivity].
  rewrite Hq. reflexivity.
Qed.

(** ** Cleaning the column index *)

Lemma mapM_raise_only {A B} (f : A -> result B) (l : list A) (x : A)
      (e : exn) :
  (forall y e', f y = Raise e' -> e' = e) ->
  In x l -> f x = Raise e -> mapM f l = Raise e.
Proof.
  intros Honly. induction l as [|y l IH]; simpl; [contradiction|].
  intros Hin Hx. destruct (f y) as [b|e'] eqn:Hy; cbn [rbind].
  - destruct Hin as [->|Hin]; [congruence|].
    rewrite (IH Hin Hx). reflexivity.
  - rewrite (Honly y e' Hy). reflexivity.
Qed.

Lemma extract_id_raise (y : string) (e : exn) :
  AttendanceForm.extract_id y = Raise e -> e = IndexError.
Proof.
  unfold AttendanceForm.extract_id.
  destruct (PyStr.re_first y); cbn [of_option rbind]; congruence.
Qed.

(** X4. A column label with an underscore but no second one (the pattern
    finds no identifier in it) makes [clean_column_index] raise
    [IndexError], unless the label ends in [questionId]. *)
Theorem clean_column_index_no_identifier (df : DataFrame) (x : string) :
  In x (columns df) ->
  PyStr.endswith x "questionId" = false ->
  PyStr.contains "_" x = true ->
  PyStr.re_first x = None ->
  AttendanceForm.clean_column_index df = Raise IndexError.
Proof.
  intros Hin He Hc Hre. unfold AttendanceForm.clean_column_index. cbv zeta.
  rewrite drop_columns, drop_filtered.
  rewrite (mapM_raise_only AttendanceForm.extract_id _ x IndexError).
  - reflexivity.
  - exact extract_id_raise.
  - apply filter_In. split; [|exact Hc]. apply filter_In.
    split; [exact Hin|]. rewrite He. reflexivity.
  - unfold AttendanceForm.extract_id. rewrite Hre. reflexivity.
Qed.

Lemma clean_column_index_no_identifier_witness :
  AttendanceForm.clean_column_index
    {| columns := Sample.meta ++ ["total_score"];
       dtypes := repeat dt_object 5;
       rows := [] |}
  = Raise IndexError.
Proof.
  apply (clean_column_index_no_identifier _ "total_score");
    [simpl; auto 10 | reflexivity | reflexivity | reflexivity].
Defined.

Lemma filter_split_length {A} (f : A -> bool) (l : list A) :
  (length (List.filter f l) + length (List.filter (fun x => negb (f x)) l)
   = length l)%nat.
Proof.
  induction l as [|x l IH]; simpl; [reflexivity|].
  destruct (f x); simpl; lia.
Qed.

Lemma mapM_ok_length {A B} (f : A -> result B) (l : list A) :
  Forall (fun x => exists y, f x = Ok y) l ->
  exists l', mapM f l = Ok l' /\ length l' = length l.
Proof.
  induction 1 as [|x l [y Hy] _ (l' & Hl' & Hlen)]; simpl.
  - exists []. split; reflexivity.
  - rewrite Hy, Hl'. cbn [rbind]. eexists. split; [reflexivity|].
    simpl. rewrite Hlen. reflexivity.
Qed.

(** X5. The labels are reset by position, four metadata labels and then
    the identifiers: when the frame, its [questionId] columns apart, does
    not have exactly four columns without underscore, and it has an
    answer column or more than four such columns, [clean_column_index]
    raises [ValueError]. *)
Theorem clean_column_index_wrong_metadata (df : DataFrame) :
  let kept := List.filter (fun x => negb (PyStr.endswith x "questionId"))
                          (columns df) in
  let keyed := List.filter (PyStr.contains "_") kept in
  let plain := List.filter (fun x => negb (PyStr.contains "_" x)) kept in
  Forall (fun x => PyStr.re_first x <> None) keyed ->
  length plain <> 4%nat ->
  keyed <> [] \/ (4 < length plain)%nat ->
  AttendanceForm.clean_column_index df = Raise ValueError.
Proof.
  intros kept keyed plain Hall Hlen Hmore.
  unfold AttendanceForm.clean_column_index. cbv zeta.
  rewrite drop_columns, drop_filtered. fold kept. fold keyed.
  destruct (mapM_ok_length AttendanceForm.extract_id keyed) as (ids & Hids & Hl).
  { eapply List.Forall_impl; [|exact Hall]. intros x Hx. simpl in Hx.
    unfold AttendanceForm.extract_id.
    destruct (PyStr.re_first x); [|congruence]. eexists. reflexivity. }
  rewrite Hids. cbn [rbind]. unfold Frame.set_columns.
  rewrite drop_columns, drop_filtered. fold kept.
  replace (length (firstn 4 kept ++ ids) =? length kept)%nat with false;
    [reflexivity|].
  symmetry. apply Nat.eqb_neq.
  pose proof (filter_split_length (PyStr.contains "_") kept) as Hsplit.
  fold keyed in Hsplit. fold plain in Hsplit.
  rewrite length_app, length_firstn, Hl.
  assert (Hk : length keyed <> 0%nat \/ (4 < length plain)%nat).
  { destruct Hmore as [Hne|Hp]; [left | right; exact Hp].
    intros H0. apply Hne. apply length_zero_iff_nil. exact H0. }
  lia.
Qed.

(** A form that does not collect e-mail addresses: three metadata
    columns. *)
Lemma clean_column_index_wrong_metadata_witness :
  AttendanceForm.clean_column_index
    {| columns := ["responseId"; "createTime"; "lastSubmittedTime";
                   "answers_1a_questionId";
                   "answers_1a_textAnswers_answers_0_value"];
       dtypes := repeat dt_object 5;
       rows := [] |}
  = Raise ValueError.
Proof.
  apply clean_column_index_wrong_metadata.
  - repeat (apply List.Forall_cons; [vm_compute; discriminate|]).
    apply List.Forall_nil.
  - vm_compute. discriminate.
  - left. vm_compute. discriminate.
Defined.

(** ** Frames stay well formed *)

Lemma select_length {A B} (keep : list bool) (xs : list A) (ys : list B) :
  length xs = length ys ->
  length (Frame.select keep xs) = length (Frame.select keep ys).
Proof.
  revert xs ys. induction keep as [|b keep IH]; intros [|x xs] [|y ys] H;
    try discriminate; try reflexivity.
  simpl in H. injection H as H. simpl.
  destruct b; simpl; rewrite (IH xs ys H); reflexivity.
Qed.

Lemma well_formed_drop (labels : list string) (df : DataFrame) :
  well_formed df -> well_formed (Frame.drop labels df).
Proof.
  intros [Hd Hr]. unfold well_formed, Frame.drop. cbn [columns dtypes rows].
  split; [apply select_length, Hd|].
  apply Forall_map. eapply List.Forall_impl; [|exact Hr].
  intros r Hlen. simpl in Hlen. apply select_length, Hlen.
Qed.

Lemma well_formed_set_columns (labels : list string) (df out : DataFrame) :
  well_formed df -> Frame.set_columns labels df = Ok out -> well_formed out.
Proof.
  intros [Hd Hr]. unfold Frame.set_columns.
  destruct (Nat.eqb_spec (length labels) (length (columns df))) as [He|];
    [|discriminate].
  intros [= <-]. unfold well_formed. cbn [columns dtypes rows].
  rewrite He. split; assumption.
Qed.

(** X6. [get_attendance] keeps frames well formed: when it returns, every
    row of the result has one cell per column label and every column has
    a dtype. *)
Theorem get_attendance_well_formed
        (df out : DataFrame) (q_titles : gmap string string) :
  well_formed df ->
  AttendanceForm.get_attendance df q_titles = Ok out ->
  well_formed out.
Proof.
  intros Hwf. unfold AttendanceForm.get_attendance,
    AttendanceForm.clean_column_index. cbv zeta.
  destruct (mapM AttendanceForm.extract_id _) as [ids|e]; cbn [rbind];
    [|discriminate].
  destruct (Frame.set_columns _ _) as [df1|e] eqn:H1; cbn [rbind];
    [|discriminate].
  intros H2. apply well_formed_set_columns in H2; [exact H2|].
  apply well_formed_drop.
  apply well_formed_set_columns in H1; [exact H1|].
  apply well_formed_drop, Hwf.
Qed.

Lemma get_attendance_well_formed_witness : well_formed Sample.attendance.
Proof.
  apply (get_attendance_well_formed Sample.responses Sample.attendance
           Sample.q_titles).
  - split; [reflexivity|].
    repeat (apply List.Forall_cons; [reflexivity|]). apply List.Forall_nil.
  - vm_compute. reflexivity.
Defined.

(** ** More on the time window filter *)

Lemma take_while_incl {A} (f : A -> bool) (l : list A) (x : A) :
  In x (Day.take_while f l) -> In x l.
Proof.
  induction l as [|y l IH]; simpl; [contradiction|].
  destruct (f y); [|contradiction]. intros [->|H]; auto.
Qed.

Lemma drop_while_incl {A} (f : A -> bool) (l : list A) (x : A) :
  In x (Day.drop_while f l) -> In x l.
Proof.
  induction l as [|y l IH]; simpl; [contradiction|].
  destruct (f y); [auto|]. intros H. exact H.
Qed.

Lemma take_while_length {A} (f : A -> bool) (l : list A) :
  (length (Day.take_while f l) <= length l)%nat.
Proof. induction l as [|y l IH]; simpl; [lia|]. destruct (f y); simpl; lia. Qed.

Lemma drop_while_length {A} (f : A -> bool) (l : list A) :
  (length (Day.drop_while f l) <= length l)%nat.
Proof. induction l as [|y l IH]; simpl; [lia|]. destruct (f y); simpl; lia. Qed.

Lemma loc_slice_incl (lo hi : Z) (l kept : list (option Z * list cell)) :
  Day.loc_slice lo hi l = Ok kept ->
  (forall p, In p kept -> In p l) /\ (length kept <= length l)%nat.
Proof.
  unfold Day.loc_slice.
  destruct (Day.is_monotonic_increasing (map fst l)).
  - intros [= <-]. split.
    + intros p Hp. eapply drop_while_incl, take_while_incl, Hp.
    + etransitivity; [apply take_while_length | apply drop_while_length].
  - destruct (existsb _ _ && existsb _ _); [|discriminate].
    intros [= <-]. split.
    + intros p Hp. apply filter_In in Hp. apply Hp.
    + apply List.filter_length_le.
Qed.

Section DayMore.

Variable to_datetime : string -> option Z.

(** X7. Whatever the time stamps are, when the filter returns it has
    kept the labels and dtypes, every record of the result is a record of
    the input, and there are no more records than before: the filter
    neither makes up nor alters a record. *)
Theorem filter_by_day_selects (df out : DataFrame) (date : string) :
  Day.filter_by_day to_datetime df date = Ok out ->
  columns out = columns df
  /\ dtypes out = dtypes df
  /\ (forall r, In r (rows out) -> In r (rows df))
  /\ (length (rows out) <= length (rows df))%nat.
Proof.
  unfold Day.filter_by_day.
  destruct (Day.DatetimeIndex to_datetime df) as [stamps|e]; cbn [rbind];
    [|discriminate].
  destruct (Day.slice_bounds to_datetime date) as [[lo hi]|e]; cbn [rbind];
    [|discriminate].
  destruct (Day.loc_slice lo hi _) as [kept|e] eqn:Hk; cbn [rbind];
    [|discriminate].
  intros [= <-]. cbn [columns dtypes rows].
  destruct (loc_slice_incl _ _ _ _ Hk) as [Hin Hlen].
  split; [reflexivity|]. split; [reflexivity|]. split.
  - intros r Hr. apply in_map_iff in Hr. destruct Hr as ([t r'] & <- & Hp).
    apply Hin in Hp. apply (Permutation_in _ (sort_index_perm _)) in Hp.
    apply in_combine_r in Hp. exact Hp.
  - rewrite length_map. etransitivity; [exact Hlen|].
    rewrite (Permutation_length (sort_index_perm _)), length_combine. lia.
Qed.

Lemma sort_index_of_sorted (l : list (option Z * list cell)) :
  StronglySorted (fun a b => label_le (fst a) (fst b)) l ->
  Day.sort_index l = l.
Proof.
  induction 1 as [|x l Hs IH Hx]; [reflexivity|].
  cbn [Day.sort_index fold_right]. fold (Day.sort_index l). rewrite IH.
  destruct l as [|y l']; [reflexivity|]. cbn [Day.insert_row].
  inversion Hx as [|? ? Hxy _]; subst. unfold label_le in Hxy.
  rewrite Hxy. reflexivity.
Qed.

Lemma filter_idem {A} (f : A -> bool) (l : list A) :
  List.filter f (List.filter f l) = List.filter f l.
Proof.
  apply filter_all. apply List.Forall_forall. intros x Hx.
  apply filter_In in Hx. apply Hx.
Qed.

(** X8. Filtering twice is filtering once: on a frame whose records all
    carry a parseable time stamp, the result of the filter passes through
    the filter of the same date unchanged. *)
Theorem filter_by_day_idempotent (df : DataFrame) (date : string) (S E : Z) :
  In "lastSubmittedTime" (columns df) ->
  Forall (fun r => row_stamp to_datetime (columns df) r <> None) (rows df) ->
  to_datetime (date +:+ "T19:00:00") = Some S ->
  to_datetime (date +:+ "T20:00:00") = Some E ->
  exists out,
    Day.filter_by_day to_datetime df date = Ok out
    /\ Day.filter_by_day to_datetime out date = Ok out.
Proof.
  intros Hcol Hall HS HE.
  rewrite (filter_by_day_ok to_datetime df date S E Hcol Hall HS HE).
  set (f := row_stamp to_datetime (columns df)).
  set (g := fun r : option Z * list cell =>
              Day.in_slice S (E + Iso8601.second_ns - 1) (fst r)).
  set (kept := List.filter g (Day.sort_index (map (fun r => (f r, r)) (rows df)))).
  assert (Hpair : forall p, In p kept -> p = (f (snd p), snd p) /\ In (snd p) (rows df)).
  { intros p Hp. apply filter_In in Hp. destruct Hp as [Hp _].
    apply (Permutation_in _ (sort_index_perm _)) in Hp.
    apply in_map_iff in Hp. destruct Hp as (r & <- & Hr). split; [reflexivity | exact Hr]. }
  eexists. split; [reflexivity|].
  rewrite (filter_by_day_ok to_datetime _ date S E); cbn [columns dtypes rows].
  - do 2 f_equal. fold f. fold g. rewrite map_map.
    assert (Hmap : map (fun p => (f (snd p), snd p)) kept = kept).
    { rewrite <- (map_id kept) at 2. apply map_ext_in. intros p Hp.
      symmetry. apply (Hpair p Hp). }
    rewrite Hmap. rewrite sort_index_of_sorted.
    + unfold kept. rewrite filter_idem. reflexivity.
    + unfold kept. apply filter_sorted, sort_index_sorted.
  - exact Hcol.
  - apply List.Forall_forall. intros r Hr. apply in_map_iff in Hr.
    destruct Hr as (p & <- & Hp). rewrite List.Forall_forall in Hall.
    apply Hall, (Hpair p Hp).
  - exact HS.
  - exact HE.
Qed.

End DayMore.

Lemma filter_by_day_selects_witness :
  columns Sample.of_the_day = columns Sample.attendance
  /\ dtypes Sample.of_the_day = dtypes Sample.attendance
  /\ (forall r, In r (rows Sample.of_the_day) -> In r (rows Sample.attendance))
  /\ (length (rows Sample.of_the_day) <= length (rows Sample.attendance))%nat.
Proof.
  apply (filter_by_day_selects Iso8601.parse Sample.attendance
           Sample.of_the_day "2023-01-10").
  vm_compute. reflexivity.
Defined.

Lemma filter_by_day_idempotent_witness :
  exists out,
    Day.filter_by_day Iso8601.parse Sample.attendance "2023-01-10" = Ok out
    /\ Day.filter_by_day Iso8601.parse out "2023-01-10" = Ok out.
Proof.
  apply (filter_by_day_idempotent Iso8601.parse Sample.attendance "2023-01-10"
           1673377200000000000 1673380800000000000).
  - simpl. auto.
  - repeat (apply List.Forall_cons; [vm_compute; discriminate|]).
    apply List.Forall_nil.
  - vm_compute. reflexivity.
  - vm_compute. reflexivity.
Defined.

(** ** More on the keyphrase validator *)

Lemma mapM_raise_in {A B} (f : A -> result B) (l : list A) (x : A) (e : exn) :
  (forall y e', In y l -> f y = Raise e' -> e' = e) ->
  In x l -> f x = Raise e -> mapM f l = Raise e.
Proof.
  induction l as [|y l IH]; simpl; [contradiction|].
  intros Honly Hin Hx. destruct (f y) as [b|e'] eqn:Hy; cbn [rbind].
  - destruct Hin as [->|Hin]; [congruence|].
    rewrite IH; [reflexivity| |exact Hin|exact Hx].
    intros z e' Hz. apply Honly. right. exact Hz.
  - rewrite (Honly y e' (or_introl eq_refl) Hy). reflexivity.
Qed.

Lemma normalized_idem (s : string) : normalized (normalized s) = normalized s.
Proof.
  destruct (normalized_is_normal s) as [Hl Hs].
  unfold normalized at 1. rewrite Hs. exact Hl.
Qed.

Section PassphraseMore.

Variable ratio : string -> string -> Z.

(** X9. One record whose answer cell is no text (a missing answer, a
    number) makes the validator raise [AttributeError]: no record is
    returned, whatever the other answers are. *)
Theorem filter_by_passphrase_needs_text
        (df : DataFrame) (i : nat) (passphrase : string)
        (r : list cell) (c : cell) :
  Frame.position Passphrase.ckey (columns df) = Some i ->
  Forall (fun r => nth_error r i <> None) (rows df) ->
  In r (rows df) ->
  nth_error r i = Some c ->
  (forall s, c <> Str s) ->
  Passphrase.filter_by_passphrase ratio df passphrase = Raise AttributeError.
Proof.
  intros Hpos Hall Hin Hc Hno.
  unfold Passphrase.filter_by_passphrase, Passphrase.assign_normalized.
  rewrite Hpos. cbn [of_option rbind].
  rewrite (mapM_raise_in _ (rows df) r AttributeError); [reflexivity| |exact Hin|].
  - intros y e' Hy. rewrite List.Forall_forall in Hall.
    pose proof (Hall y Hy) as Hsome.
    destruct (nth_error y i) as [[s|q|]|]; cbn [of_option rbind Passphrase.normalize];
      congruence.
  - rewrite Hc. cbn [of_option rbind].
    destruct c as [s|q|]; [exfalso; exact (Hno s eq_refl)|reflexivity|reflexivity].
Qed.

Lemma answer_of_insert (cols : list string) (i : nat) (r : list cell)
      (c : cell) (v : string) :
  Frame.position Passphrase.ckey cols = Some i ->
  nth_error r i = Some c ->
  answer cols (<[i := Str v]> r) = Some v.
Proof.
  intros Hpos Hc. unfold answer, Frame.get.
  rewrite Hpos, (nth_error_insert_eq _ _ _ _ Hc). reflexivity.
Qed.

(** X10. Validating twice: over records that carry a text answer, a
    frame the validator returns with at least one record passes through
    the validator with the same key phrase unchanged.  A result without
    records does not: validated again it loses its columns, and the
    result for a frame without records, which has no column, makes the
    validator raise [KeyError]. *)
Theorem filter_by_passphrase_idempotent
        (df : DataFrame) (i : nat) (passphrase : string) :
  Frame.position Passphrase.ckey (columns df) = Some i ->
  Forall (fun r => answer (columns df) r <> None) (rows df) ->
  exists out,
    Passphrase.filter_by_passphrase ratio df passphrase = Ok out
    /\ (rows out <> [] ->
        Passphrase.filter_by_passphrase ratio out passphrase = Ok out)
    /\ (rows out = [] -> rows df <> [] ->
        Passphrase.filter_by_passphrase ratio out passphrase
        = Ok {| columns := []; dtypes := []; rows := [] |})
    /\ (rows df = [] ->
        Passphrase.filter_by_passphrase ratio out passphrase
        = Raise KeyError).
Proof.
  intros Hpos Hall.
  assert (Hcase : rows df = [] \/ rows df <> [])
    by (destruct (rows df); [left; reflexivity|right; discriminate]).
  destruct Hcase as [Hnil|Hne].
  { rewrite (filter_by_passphrase_no_rows ratio df i _ Hpos Hnil).
    eexists. split; [reflexivity|]. cbn [rows].
    split; [congruence|]. split; [congruence|]. reflexivity. }
  rewrite (filter_by_passphrase_ok ratio df i _ Hpos Hall Hne).
  eexists. split; [reflexivity|]. cbn [rows].
  split; [|split; [|congruence]];
    [|intros Hnone _;
      apply (filter_by_passphrase_no_rows ratio _ i); [exact Hpos|exact Hnone]].
  intros Hsome.
  set (v := validate_record ratio i passphrase (columns df)).
  assert (Hfix : forall r r', In r (rows df) -> v r = Some r' ->
                              v r' = Some r').
  { intros r r' Hr Hv. unfold v, validate_record in Hv |- *.
    destruct (answer (columns df) r) as [s|] eqn:Hs; [|discriminate].
    destruct (FUZZ_THRESHOLD <=? ratio (normalized s) passphrase)%Z eqn:Hle;
      [|discriminate].
    injection Hv as <-.
    rewrite (answer_of_insert _ _ _ _ _ Hpos (answer_nth _ _ _ _ Hpos Hs)).
    rewrite normalized_idem, Hle, list_insert_insert_eq. reflexivity. }
  rewrite (filter_by_passphrase_ok ratio _ i _); cbn [columns dtypes rows];
    [| exact Hpos | | exact Hsome].
  - f_equal. f_equal; [apply list_insert_insert_eq|]. fold v.
    clear Hsome Hne.
    clear Hall. induction (rows df) as [|r rs IH]; [reflexivity|].
    change (omap v (r :: rs)) with
      (match v r with Some y => y :: omap v rs | None => omap v rs end).
    destruct (v r) as [r'|] eqn:Hv.
    + change (omap v (r' :: omap v rs)) with
        (match v r' with Some y => y :: omap v (omap v rs)
                    | None => omap v (omap v rs) end).
      rewrite (Hfix r r' (or_introl eq_refl) Hv). f_equal.
      apply IH. intros r0 r0' H0. apply Hfix. right. exact H0.
    + apply IH. intros r0 r0' H0. apply Hfix. right. exact H0.
  - apply List.Forall_forall. intros r' Hr'.
    apply list_elem_of_In, list_elem_of_omap in Hr'.
    destruct Hr' as (r & Hr & Hv). fold v in Hv. apply list_elem_of_In in Hr.
    unfold v, validate_record in Hv.
    destruct (answer (columns df) r) as [s|] eqn:Hs; [|discriminate].
    destruct (FUZZ_THRESHOLD <=? ratio (normalized s) passphrase)%Z;
      [|discriminate].
    injection Hv as <-.
    rewrite (answer_of_insert _ _ _ _ _ Hpos (answer_nth _ _ _ _ Hpos Hs)).
    discriminate.
Qed.

End PassphraseMore.

Lemma filter_by_passphrase_needs_text_witness :
  Passphrase.filter_by_passphrase Sample.same_text
    {| columns := columns Sample.attendance;
       dtypes := dtypes Sample.attendance;
       rows := [Sample.r1;
                [Str "r6"; Str "2023-01-10T19:20:00Z";
                 Str "2023-01-10T19:20:00Z"; Str "f@x.edu"; NaN; Str "2"]] |}
    "graphs"
  = Raise AttributeError.
Proof.
  apply (filter_by_passphrase_needs_text Sample.same_text _ 4 "graphs"
           [Str "r6"; Str "2023-01-10T19:20:00Z";
            Str "2023-01-10T19:20:00Z"; Str "f@x.edu"; NaN; Str "2"] NaN).
  - reflexivity.
  - repeat (apply List.Forall_cons; [vm_compute; discriminate|]).
    apply List.Forall_nil.
  - simpl. auto.
  - reflexivity.
  - intros s. discriminate.
Defined.

Lemma filter_by_passphrase_idempotent_witness :
  exists out,
    Passphrase.filter_by_passphrase Sample.same_text Sample.of_the_day
      "graphs" = Ok out
    /\ (rows out <> [] ->
        Passphrase.filter_by_passphrase Sample.same_text out "graphs"
        = Ok out)
    /\ (rows out = [] -> rows Sample.of_the_day <> [] ->
        Passphrase.filter_by_passphrase Sample.same_text out "graphs"
        = Ok {| columns := []; dtypes := []; rows := [] |})
    /\ (rows Sample.of_the_day = [] ->
        Passphrase.filter_by_passphrase Sample.same_text out "graphs"
        = Raise KeyError).
Proof.
  apply (filter_by_passphrase_idempotent Sample.same_text Sample.of_the_day 4
           "graphs").
  - reflexivity.
  - repeat (apply List.Forall_cons; [vm_compute; discriminate|]).
    apply List.Forall_nil.
Defined.

(** The three cases at the sample: a phrase that some answer matches, a
    phrase that none matches, a day without records. *)
Example sample_filter_by_passphrase_twice :
  (exists out,
      Passphrase.filter_by_passphrase Sample.same_text Sample.of_the_day
        "graphs" = Ok out
      /\ rows out <> []
      /\ Passphrase.filter_by_passphrase Sample.same_text out "graphs"
         = Ok out)
  /\ (exists out,
         Passphrase.filter_by_passphrase Sample.same_text Sample.of_the_day
           "trees" = Ok out
         /\ columns out = columns Sample.of_the_day
         /\ rows out = []
         /\ Passphrase.filter_by_passphrase Sample.same_text out "trees"
            = Ok {| columns := []; dtypes := []; rows := [] |})
  /\ (exists out,
         Passphrase.filter_by_passphrase Sample.same_text
           (with_rows Sample.of_the_day []) "graphs" = Ok out
         /\ columns out = []
         /\ Passphrase.filter_by_passphrase Sample.same_text out "graphs"
            = Raise KeyError).
Proof.
  split; [|split]; eexists; (split; [vm_compute; reflexivity|]).
  - split; [discriminate | vm_compute; reflexivity].
  - split; [reflexivity|]. split; reflexivity.
  - split; reflexivity.
Qed.

Lemma is_upper_lower_char (c : ascii) :
  PyStr.is_upper (PyStr.lower_char c) = false.
Proof.
  destruct c as [[] [] [] [] [] [] [] []]; vm_compute; reflexivity.
Qed.

Lemma first_char_lstrip (s : string) (c : ascii) :
  first_char (PyStr.lstrip s) = Some c -> PyStr.is_space c = false.
Proof.
  induction s as [|c0 s IH]; [discriminate|]. cbn [PyStr.lstrip].
  destruct (PyStr.is_space c0) eqn:H0; [exact IH|].
  intros [= <-]. exact H0.
Qed.

Lemma first_char_rstrip (s : string) (c : ascii) :
  first_char (PyStr.rstrip s) = Some c -> first_char s = Some c.
Proof.
  destruct s as [|c0 s]; [discriminate|]. cbn [PyStr.rstrip].
  destruct (PyStr.rstrip s); [destruct (PyStr.is_space c0)|];
    cbn [first_char]; congruence.
Qed.

Lemma last_char_rstrip (s : string) (c : ascii) :
  last_char (PyStr.rstrip s) = Some c -> PyStr.is_space c = false.
Proof.
  induction s as [|c0 s IH]; [discriminate|]. cbn [PyStr.rstrip].
  destruct (PyStr.rstrip s) as [|c1 r1].
  - destruct (PyStr.is_space c0) eqn:H0; [discriminate|].
    intros [= <-]. exact H0.
  - intros H. apply IH. exact H.
Qed.

Lemma first_char_lower (s : string) :
  first_char (PyStr.lower s) = option_map PyStr.lower_char (first_char s).
Proof. destruct s; reflexivity. Qed.

Lemma last_char_lower (s : string) :
  last_char (PyStr.lower s) = option_map PyStr.lower_char (last_char s).
Proof.
  induction s as [|c s IH]; [reflexivity|].
  destruct s as [|c' s']; [reflexivity|]. exact IH.
Qed.

(** X11. The text the validator stores and compares has no upper-case
    letter and neither starts nor ends with a whitespace character. *)
Theorem normalized_shape (s : string) :
  (forall c, In c (list_ascii_of_string (normalized s)) ->
             PyStr.is_upper c = false)
  /\ (forall c, first_char (normalized s) = Some c -> PyStr.is_space c = false)
  /\ (forall c, last_char (normalized s) = Some c -> PyStr.is_space c = false).
Proof.
  unfold normalized. split; [|split].
  - generalize (PyStr.strip s). intros t c.
    induction t as [|c0 t IH]; [intros []|].
    intros [<-|Hin]; [apply is_upper_lower_char | exact (IH Hin)].
  - intros c. rewrite first_char_lower.
    destruct (first_char (PyStr.strip s)) as [c0|] eqn:H0; [|discriminate].
    intros [= <-]. rewrite is_space_lower_char.
    unfold PyStr.strip in H0.
    exact (first_char_lstrip _ _ (first_char_rstrip _ _ H0)).
  - intros c. rewrite last_char_lower.
    destruct (last_char (PyStr.strip s)) as [c0|] eqn:H0; [|discriminate].
    intros [= <-]. rewrite is_space_lower_char.
    exact (last_char_rstrip _ _ H0).
Qed.

Lemma normalized_shape_witness :
  PyStr.is_space "g" = false /\ PyStr.is_space "s" = false.
Proof.
  split.
  - apply (proj1 (proj2 (normalized_shape "  Graphs "))). reflexivity.
  - apply (proj2 (proj2 (normalized_shape "  Graphs "))). reflexivity.
Defined.

(** ** More on the signal extractor *)

Lemma zip_with_flags_length {A} (f : A -> A) (flags : list bool) (xs : list A) :
  length (Signals.zip_with_flags f flags xs) = length xs.
Proof.
  revert xs. induction flags as [|b flags IH]; intros [|x xs]; simpl;
    try reflexivity. rewrite IH. reflexivity.
Qed.

Lemma zip_with_flags_apply {A} (f : A -> A) (flags : list bool) (xs : list A)
      (k : nat) :
  nth_error flags k = Some true ->
  nth_error (Signals.zip_with_flags f flags xs) k
  = option_map f (nth_error xs k).
Proof.
  revert flags xs. induction k as [|k IH]; intros [|b flags] [|x xs] H;
    try discriminate; try reflexivity.
  - simpl in H. injection H as ->. reflexivity.
  - simpl in H |- *. apply IH. exact H.
Qed.

Lemma zip_with_flags_idem {A} (f : A -> A) (flags : list bool) (xs : list A) :
  (forall x, f (f x) = f x) ->
  Signals.zip_with_flags f flags (Signals.zip_with_flags f flags xs)
  = Signals.zip_with_flags f flags xs.
Proof.
  intros Hf. revert xs. induction flags as [|b flags IH]; intros [|x xs];
    simpl; try reflexivity.
  rewrite IH. destruct b; [rewrite Hf|]; reflexivity.
Qed.

Lemma coerce_idem (to_numeric : string -> option Q) (c : cell) :
  Signals.coerce to_numeric (Signals.coerce to_numeric c)
  = Signals.coerce to_numeric c.
Proof. destruct c as [s|q|]; simpl; [destruct (to_numeric s)|..]; reflexivity. Qed.

Section SignalsMore.

Variable to_numeric : string -> option Q.

(** X12. The conversion keeps the labels and the number of records, and
    it leaves every column alone whose name contains none of its
    substrings: the dtype and every cell of such a column are as
    before. *)
Theorem convert_numeric_cols_frame (df : DataFrame) :
  columns (Signals.convert_numeric_cols to_numeric df) = columns df
  /\ length (rows (Signals.convert_numeric_cols to_numeric df))
     = length (rows df)
  /\ forall k name,
       nth_error (columns df) k = Some name ->
       Signals.matches_any Signals.numeric_matches name = false ->
       nth_error (dtypes (Signals.convert_numeric_cols to_numeric df)) k
       = nth_error (dtypes df) k
       /\ map (fun r => nth_error r k)
              (rows (Signals.convert_numeric_cols to_numeric df))
          = map (fun r => nth_error r k) (rows df).
Proof.
  unfold Signals.convert_numeric_cols.
  destruct (rows df) as [|r0 rs] eqn:Hrows.
  - rewrite Hrows. repeat split; reflexivity.
  - cbn [columns dtypes rows]. split; [reflexivity|].
    split; [apply List.length_map|].
    intros k name Hk Hm.
    assert (Hflag : nth_error (map (Signals.matches_any Signals.numeric_matches)
                                   (columns df)) k = Some false).
    { rewrite nth_error_map, Hk. cbn [option_map]. rewrite Hm. reflexivity. }
    split; [apply zip_with_flags_nth, Hflag|].
    rewrite map_map. apply map_ext. intros r.
    apply zip_with_flags_nth, Hflag.
Qed.

(** X13. After the conversion no cell of a column whose name contains
    one of the substrings is a text: it is a number or missing. *)
Theorem convert_numeric_cols_no_text
        (df : DataFrame) (r' : list cell) (k : nat) (name : string) (c : cell) :
  In r' (rows (Signals.convert_numeric_cols to_numeric df)) ->
  nth_error (columns df) k = Some name ->
  Signals.matches_any Signals.numeric_matches name = true ->
  nth_error r' k = Some c ->
  c = NaN \/ exists q, c = Num q.
Proof.
  unfold Signals.convert_numeric_cols.
  destruct (rows df) as [|r0 rs] eqn:Hrows.
  - rewrite Hrows. intros [].
  - cbn [rows]. intros Hin Hk Hm Hc.
    apply in_map_iff in Hin. destruct Hin as (r & <- & _).
    rewrite zip_with_flags_apply in Hc
      by (rewrite nth_error_map, Hk; cbn [option_map]; rewrite Hm; reflexivity).
    destruct (nth_error r k) as [[s|q|]|]; cbn in Hc; try discriminate.
    + destruct (to_numeric s); injection Hc as <-; eauto.
    + injection Hc as <-. eauto.
    + injection Hc as <-. auto.
Qed.

(** X14. Converting twice is converting once. *)
Theorem convert_numeric_cols_idempotent (df : DataFrame) :
  Signals.convert_numeric_cols to_numeric
    (Signals.convert_numeric_cols to_numeric df)
  = Signals.convert_numeric_cols to_numeric df.
Proof.
  unfold Signals.convert_numeric_cols at 2.
  destruct (rows df) as [|r0 rs] eqn:Hrows.
  - unfold Signals.convert_numeric_cols. rewrite Hrows. reflexivity.
  - unfold Signals.convert_numeric_cols. rewrite Hrows.
    cbn [columns dtypes rows map].
    f_equal.
    + apply zip_with_flags_idem. reflexivity.
    + f_equal; [apply zip_with_flags_idem, coerce_idem|].
      rewrite map_map. apply map_ext. intros r.
      apply zip_with_flags_idem, coerce_idem.
Qed.

End SignalsMore.

Lemma convert_numeric_cols_frame_witness :
  nth_error (dtypes (Signals.convert_numeric_cols Sample.whole_number
                       Sample.of_the_day)) 3
  = nth_error (dtypes Sample.of_the_day) 3
  /\ map (fun r => nth_error r 3)
         (rows (Signals.convert_numeric_cols Sample.whole_number
                  Sample.of_the_day))
     = map (fun r => nth_error r 3) (rows Sample.of_the_day).
Proof.
  apply (proj2 (proj2 (convert_numeric_cols_frame Sample.whole_number
                         Sample.of_the_day)) 3%nat "respondentEmail");
    reflexivity.
Defined.

Lemma convert_numeric_cols_no_text_witness :
  NaN = NaN \/ exists q, NaN = Num q.
Proof.
  apply (convert_numeric_cols_no_text Sample.whole_number Sample.of_the_day
           [Str "r2"; Str "2023-01-10T19:10:00.25Z";
            Str "2023-01-10T19:10:00.25Z"; Str "b@x.edu"; Str "graphs"; NaN]
           5 "Understanding" NaN).
  - vm_compute. auto.
  - reflexivity.
  - reflexivity.
  - reflexivity.
Defined.

Lemma converted_column_reported_witness :
  exists m,
    In ("Understanding", m)
       (Signals.report Binary64.sum Binary64.div
          (Signals.convert_numeric_cols Sample.whole_number Sample.of_the_day)).
Proof.
  apply (converted_column_reported Sample.whole_number
           Binary64.sum Binary64.div Sample.of_the_day 5
           "Understanding" dt_object).
  - discriminate.
  - reflexivity.
  - reflexivity.
  - reflexivity.
Defined.

(** ** More on the assistance detector *)

Lemma select_nth_in {A} (flags : list bool) (xs : list A) (k : nat) (x : A) :
  nth_error flags k = Some true -> nth_error xs k = Some x ->
  In x (Frame.select flags xs).
Proof.
  revert flags xs. induction k as [|k IH]; intros [|b flags] [|y xs] Hf Hx;
    try discriminate.
  - simpl in Hf, Hx. injection Hf as ->. injection Hx as ->. left. reflexivity.
  - simpl in Hf, Hx |- *. destruct b; [right|]; apply IH; assumption.
Qed.

Lemma select_incl {A} (flags : list bool) (xs : list A) (x : A) :
  In x (Frame.select flags xs) -> In x xs.
Proof.
  revert xs. induction flags as [|b flags IH]; intros [|y xs]; simpl;
    try contradiction.
  destruct b; simpl; [intros [->|H]; auto|]; auto.
Qed.

Lemma select_none {A} (flags : list bool) (xs : list A) :
  Forall (fun b => b = false) flags -> Frame.select flags xs = [].
Proof.
  intros H. revert xs. induction H as [|b flags Hb _ IH]; intros [|x xs];
    try reflexivity. subst b. simpl. apply IH.
Qed.

Lemma lt_raise (c : cell) (e : exn) : Signals.lt 2 c = Raise e -> e = TypeError.
Proof. destruct c; simpl; congruence. Qed.

Lemma any_below_raise (flags : list bool) (r : list cell) (e : exn) :
  Signals.any_below flags r = Raise e -> e = TypeError.
Proof.
  unfold Signals.any_below. generalize (Frame.select flags r). intros l.
  destruct (mapM (Signals.lt 2) l) as [bs|e'] eqn:Hm; cbn [rbind];
    [discriminate|].
  intros [= <-]. revert e' Hm. induction l as [|c l IH]; simpl; [discriminate|].
  intros e'. destruct (Signals.lt 2 c) as [b|e0] eqn:Hc; cbn [rbind].
  - destruct (mapM (Signals.lt 2) l) as [bs|e1]; cbn [rbind]; [discriminate|].
    intros [= <-]. apply IH. reflexivity.
  - intros [= <-]. exact (lt_raise _ _ Hc).
Qed.

(** X15. On a frame that was not converted, a text in a rating column
    makes the detector raise [TypeError]. *)
Theorem identify_assistance_need_text
        (df : DataFrame) (k : nat) (name : string) (r : list cell)
        (s : string) :
  nth_error (columns df) k = Some name ->
  Signals.matches_any Signals.rating_matches name = true ->
  In r (rows df) ->
  nth_error r k = Some (Str s) ->
  Signals.identify_assistance_need df = Raise TypeError.
Proof.
  intros Hk Hm Hin Hc. unfold Signals.identify_assistance_need.
  rewrite (mapM_raise_only _ (rows df) r TypeError); [reflexivity| |exact Hin|].
  - intros y e'. apply any_below_raise.
  - unfold Signals.any_below.
    rewrite (mapM_raise_only (Signals.lt 2) _ (Str s) TypeError);
      [reflexivity | exact lt_raise | | reflexivity].
    apply (select_nth_in _ _ k); [|exact Hc].
    rewrite nth_error_map, Hk. cbn [option_map]. rewrite Hm. reflexivity.
Qed.

Lemma identify_assistance_need_text_witness :
  Signals.identify_assistance_need Sample.of_the_day = Raise TypeError.
Proof.
  apply (identify_assistance_need_text Sample.of_the_day 5 "Understanding"
           Sample.r2 "abc").
  - reflexivity.
  - reflexivity.
  - simpl. auto.
  - reflexivity.
Defined.

(** X16. When no column name contains a rating substring the detector
    flags nobody, whatever the cells hold. *)
Theorem identify_assistance_need_no_rating (df : DataFrame) :
  Forall (fun c => Signals.matches_any Signals.rating_matches c = false)
         (columns df) ->
  Signals.identify_assistance_need df
  = Ok {| columns := columns df; dtypes := dtypes df; rows := [] |}.
Proof.
  intros Hno. unfold Signals.identify_assistance_need.
  rewrite (mapM_ok_map _ (fun _ => false)).
  - cbn [rbind]. do 2 f_equal. apply select_none.
    apply Forall_map. apply List.Forall_forall. intros; reflexivity.
  - apply List.Forall_forall. intros r _. unfold Signals.any_below.
    rewrite select_none; [reflexivity|].
    apply Forall_map. exact Hno.
Qed.

Lemma identify_assistance_need_no_rating_witness :
  Signals.identify_assistance_need
    {| columns := Sample.meta; dtypes := repeat dt_object 4;
       rows := [[Str "r1"; Str "t"; Str "t"; Str "a@x.edu"]] |}
  = Ok {| columns := Sample.meta; dtypes := repeat dt_object 4; rows := [] |}.
Proof.
  apply (identify_assistance_need_no_rating
           {| columns := Sample.meta; dtypes := repeat dt_object 4;
              rows := [[Str "r1"; Str "t"; Str "t"; Str "a@x.edu"]] |}).
  repeat (apply List.Forall_cons; [reflexivity|]). apply List.Forall_nil.
Defined.

Lemma mapM_select {A} (f : A -> result bool) (l : list A) (marks : list bool) :
  mapM f l = Ok marks ->
  exists marks',
    mapM f (Frame.select marks l) = Ok marks'
    /\ Frame.select marks' (Frame.select marks l) = Frame.select marks l.
Proof.
  revert marks. induction l as [|x l IH]; intros marks; simpl.
  - intros [= <-]. exists []. split; reflexivity.
  - destruct (f x) as [b|e] eqn:Hx; cbn [rbind]; [|discriminate].
    destruct (mapM f l) as [ms|e] eqn:Hl; cbn [rbind]; [|discriminate].
    intros [= <-]. destruct (IH ms eq_refl) as (marks' & Hm & Hs).
    destruct b; cbn [Frame.select].
    + exists (true :: marks'). simpl. rewrite Hx, Hm. cbn [rbind].
      split; [reflexivity|]. rewrite Hs. reflexivity.
    + exists marks'. split; assumption.
Qed.

(** X17. When the detector returns, it has kept the labels, every record
    it returns is a record of its input, and its result passes through
    the detector unchanged. *)
Theorem identify_assistance_need_idempotent (df out : DataFrame) :
  Signals.identify_assistance_need df = Ok out ->
  columns out = columns df
  /\ (forall r, In r (rows out) -> In r (rows df))
  /\ Signals.identify_assistance_need out = Ok out.
Proof.
  unfold Signals.identify_assistance_need.
  destruct (mapM _ (rows df)) as [marks|e] eqn:Hm; cbn [rbind]; [|discriminate].
  intros [= <-]. cbn [columns dtypes rows].
  split; [reflexivity|]. split; [intros r; apply select_incl|].
  destruct (mapM_select _ _ _ Hm) as (marks' & Hm' & Hs).
  rewrite Hm'. cbn [rbind]. rewrite Hs. reflexivity.
Qed.

Lemma identify_assistance_need_idempotent_witness :
  exists out,
    Signals.identify_assistance_need Sample.table = Ok out
    /\ (forall r, In r (rows out) -> In r (rows Sample.table))
    /\ Signals.identify_assistance_need out = Ok out.
Proof.
  eexists. split; [vm_compute; reflexivity|].
  apply (identify_assistance_need_idempotent Sample.table).
  vm_compute. reflexivity.
Defined.

(** ** More on the report *)

(** X20. Over a frame without records every mean of the report is
    missing. *)
Theorem report_of_no_rows
        (fsum : list Q -> Q) (fdiv : Q -> Q -> Q) (df : DataFrame) :
  rows df = [] ->
  forall name m, In (name, m) (Signals.report fsum fdiv df) -> m = None.
Proof.
  intros Hrows name m Hin. unfold Signals.report in Hin.
  destruct (means_from_sound _ _ 0 _ _ _ _ _ Hin) as (k & _ & _ & ->).
  rewrite Hrows. reflexivity.
Qed.

Lemma report_of_no_rows_witness :
  Signals.nanmean Binary64.sum Binary64.div (Signals.column_at 5 []) = None.
Proof.
  apply (report_of_no_rows Binary64.sum Binary64.div
           (with_rows Sample.table []) eq_refl "Understanding").
  vm_compute. auto.
Defined.

(** ** More on the roster reconciler *)

Lemma firstn_incl {A} (n : nat) (l : list A) (x : A) :
  In x (firstn n l) -> In x l.
Proof.
  revert l. induction n as [|n IH]; intros [|y l]; simpl; try contradiction.
  intros [->|H]; auto.
Qed.

Lemma isin_ext (login : string) (e1 e2 : list cell) :
  (forall c, In c e1 <-> In c e2) ->
  Canvas.isin login e1 = Canvas.isin login e2.
Proof.
  intros Hext. destruct (Canvas.isin login e2) eqn:H2.
  - apply isin_In, Hext, isin_In, H2.
  - destruct (Canvas.isin login e1) eqn:H1; [|reflexivity].
    apply isin_In, Hext, isin_In in H1. congruence.
Qed.

Section CanvasMore.

Variable provider : list Canvas.call -> Canvas.call -> bool.

Lemma post_all_prefix (ds : list Canvas.call) (w : Canvas.world) :
  exists n,
    (n <= length ds)%nat
    /\ snd (post_all provider ds w) = add_calls (firstn n ds) w
    /\ (fst (post_all provider ds w) = Ok tt -> n = length ds).
Proof.
  revert w. induction ds as [|c ds IH]; intros w.
  - exists 0%nat. cbn. rewrite add_calls_nil. auto.
  - cbn [post_all]. unfold Canvas.mseq, Canvas.ignoring.
    destruct (IH (add_calls [c] w)) as (n & Hn & Hs & Hok).
    assert (Hnext : exists r,
               (if enrolled_call c
                then Canvas.set_score provider (fst c) (snd c)
                else fun w0 =>
                       (Ok tt,
                        snd (Canvas.set_score provider (fst c) (snd c) w0)))
                 w
               = (r, add_calls [c] w)).
    { destruct (enrolled_call c); rewrite set_score_log;
        destruct c as [u sc]; cbn [fst snd]; eexists; reflexivity. }
    destruct Hnext as ([[]|e] & ->).
    + exists (S n). split; [simpl; lia|]. split.
      * rewrite Hs, add_calls_app. reflexivity.
      * intros H. simpl. rewrite (Hok H). reflexivity.
    + exists 1%nat. split; [simpl; lia|]. split; [reflexivity|].
      cbn. discriminate.
Qed.

(** X21. Whatever the provider does, the calls the upload has made when
    it ends are an initial part of the calls it sets out to make, in
    their order: one for each absent and then for each present entry, a
    call on a row of missing values standing for a side without entry;
    no call twice, none out of turn; when the upload ends well they are
    all of them. *)
Theorem canvas_upload_posts_prefix
        (uids : list Canvas.profile) (df : DataFrame) (emails : list cell)
        (w : Canvas.world) :
  Canvas.column "respondentEmail" df = Ok emails ->
  exists n,
    (n <= length (upload_calls uids emails))%nat
    /\ snd (Canvas.canvas_upload provider uids df w)
       = add_calls (firstn n (upload_calls uids emails)) w
    /\ (fst (Canvas.canvas_upload provider uids df w) = Ok tt ->
        n = length (upload_calls uids emails)).
Proof.
  intros Hcol. destruct uids as [|u0 uids].
  - exists 0%nat. split; [lia|]. split; [|discriminate].
    cbn. rewrite add_calls_nil. reflexivity.
  - rewrite (canvas_upload_post_all provider (u0 :: uids) df emails w)
      by (discriminate || exact Hcol).
    apply post_all_prefix.
Qed.

(** X22. The absent come first: once a grade 1 has been posted, every
    roster entry whose login is not among the respondents has been posted
    its 0. *)
Theorem canvas_upload_absent_first
        (uids : list Canvas.profile) (df : DataFrame) (emails : list cell)
        (s : Canvas.student) (v : Canvas.profile) :
  Canvas.column "respondentEmail" df = Ok emails ->
  In (s, 1%Z)
     (Canvas.calls (snd (Canvas.canvas_upload provider uids df
                           Canvas.empty_world))) ->
  In v uids ->
  ~ In (Str (Canvas.login_id v)) emails ->
  In (Canvas.Enrolled v, 0%Z)
     (Canvas.calls (snd (Canvas.canvas_upload provider uids df
                           Canvas.empty_world))).
Proof.
  intros Hcol Hu Hv Hno.
  assert (Hne : uids <> []) by (intros ->; destruct Hv).
  rewrite (canvas_upload_post_all provider uids df emails _ Hne Hcol)
    in Hu |- *.
  destruct (post_all_prefix (upload_calls uids emails) Canvas.empty_world)
    as (n & _ & Hs & _).
  rewrite Hs in Hu |- *. cbn [add_calls Canvas.calls Canvas.empty_world app] in *.
  unfold upload_calls in Hu |- *. rewrite firstn_app in Hu |- *.
  set (absent := List.filter
                   (fun u => negb (Canvas.isin (Canvas.login_id u) emails))
                   uids) in *.
  assert (Ha : In v absent).
  { unfold absent. apply filter_In. split; [exact Hv|]. apply negb_true_iff.
    destruct (Canvas.isin (Canvas.login_id v) emails) eqn:Hi; [|reflexivity].
    exfalso. apply Hno, isin_In, Hi. }
  assert (Hz : In (Canvas.Enrolled v, 0%Z) (graded 0 absent)).
  { destruct absent as [|a0 absent']; [destruct Ha|]. unfold graded.
    apply in_map_iff. exists v. split; [reflexivity | exact Ha]. }
  assert (Hzero : forall c, In c (graded 0 absent) -> snd c = 0%Z).
  { intros c Hc. destruct absent as [|a0 absent'].
    - destruct Hc as [<-|[]]. reflexivity.
    - unfold graded in Hc. apply in_map_iff in Hc.
      destruct Hc as (x & <- & _). reflexivity. }
  apply in_app_or in Hu. destruct Hu as [Hu|Hu].
  - exfalso. apply firstn_incl, Hzero in Hu. discriminate Hu.
  - apply in_or_app. left.
    destruct (Nat.le_gt_cases n (length (graded 0 absent))) as [Hle|Hgt].
    + replace (n - length (graded 0 absent))%nat with 0%nat in Hu by lia.
      destruct Hu.
    + rewrite firstn_all2 by lia. exact Hz.
Qed.

(** X23. The grades depend only on which e-mails responded, not on the
    order of the records nor on how often a student responded. *)
Theorem canvas_upload_by_respondents
        (uids : list Canvas.profile) (df1 df2 : DataFrame)
        (e1 e2 : list cell) (w : Canvas.world) :
  Canvas.column "respondentEmail" df1 = Ok e1 ->
  Canvas.column "respondentEmail" df2 = Ok e2 ->
  (forall c, In c e1 <-> In c e2) ->
  Canvas.canvas_upload provider uids df1 w
  = Canvas.canvas_upload provider uids df2 w.
Proof.
  intros H1 H2 Hext. destruct uids as [|u0 uids]; [reflexivity|].
  rewrite (canvas_upload_post_all provider _ df1 e1 w) by
    (discriminate || exact H1).
  rewrite (canvas_upload_post_all provider _ df2 e2 w) by
    (discriminate || exact H2).
  f_equal. unfold upload_calls. f_equal; f_equal; apply filter_ext; intros u;
    rewrite (isin_ext _ e1 e2 Hext); reflexivity.
Qed.

(** X29. Over a roster that is not empty, with a provider that refuses
    no enrolled student, the upload ends well and its calls on enrolled
    students are one for every roster entry and for nobody else: score 1
    when the entry's login is among the respondent e-mails, score 0
    otherwise.  Its other calls, at most one for each score, are on the
    row of missing values. *)
Theorem canvas_upload_enrolled
        (uids : list Canvas.profile) (df : DataFrame) (emails : list cell)
        (w : Canvas.world) :
  Canvas.column "respondentEmail" df = Ok emails ->
  uids <> [] ->
  (forall log c, enrolled_call c = true -> provider log c = true) ->
  exists cs,
    Canvas.canvas_upload provider uids df w = (Ok tt, add_calls cs w)
    /\ Permutation (map fst (List.filter enrolled_call cs))
                   (map Canvas.Enrolled uids)
    /\ (forall u score,
           In (Canvas.Enrolled u, score) cs ->
           (score = 1%Z /\ In (Str (Canvas.login_id u)) emails)
           \/ (score = 0%Z /\ ~ In (Str (Canvas.login_id u)) emails))
    /\ (length uids <= length cs <= S (length uids))%nat.
Proof.
  intros Hcol Hne Hok. exists (upload_calls uids emails).
  rewrite (canvas_upload_post_all provider uids df emails w Hne Hcol).
  split; [apply post_all_ok; intros b1 c b2 _ Hc; apply Hok, Hc|].
  rewrite upload_calls_enrolled.
  split; [apply decisions_roster|]. split.
  - intros u score Hin. apply (decisions_score uids emails).
    rewrite <- upload_calls_enrolled. apply filter_In. split; [exact Hin|].
    reflexivity.
  - unfold upload_calls.
    pose proof (Permutation_length
                  (partition_perm
                     (fun u => Canvas.isin (Canvas.login_id u) emails) uids))
      as Hlen.
    rewrite length_app in Hlen |- *. revert Hlen.
    destruct (List.filter
                (fun u => negb (Canvas.isin (Canvas.login_id u) emails)) uids)
      as [|a la];
      destruct (List.filter
                  (fun u => Canvas.isin (Canvas.login_id u) emails) uids)
        as [|p lp];
      cbn [graded length]; rewrite ?List.length_map; intros Hlen;
      simpl in Hlen |- *; try lia.
    destruct uids; [congruence | discriminate Hlen].
Qed.

End CanvasMore.

Lemma canvas_upload_posts_prefix_witness :
  exists n,
    (n <= length (upload_calls Sample.roster
                    [Str "b@x.edu"; Str "a@x.edu"; Str "c@x.edu"]))%nat
    /\ snd (Canvas.canvas_upload (Sample.refuses "d@x.edu") Sample.roster
              Sample.table Canvas.empty_world)
       = add_calls
           (firstn n (upload_calls Sample.roster
                        [Str "b@x.edu"; Str "a@x.edu"; Str "c@x.edu"]))
           Canvas.empty_world
    /\ (fst (Canvas.canvas_upload (Sample.refuses "d@x.edu") Sample.roster
               Sample.table Canvas.empty_world) = Ok tt ->
        n = length (upload_calls Sample.roster
                      [Str "b@x.edu"; Str "a@x.edu"; Str "c@x.edu"])).
Proof.
  apply (canvas_upload_posts_prefix (Sample.refuses "d@x.edu") Sample.roster
           Sample.table).
  reflexivity.
Defined.

Lemma canvas_upload_absent_first_witness :
  In (Canvas.Enrolled Sample.dan, 0%Z)
     (Canvas.calls (snd (Canvas.canvas_upload Sample.accepts_all Sample.roster
                           Sample.table Canvas.empty_world))).
Proof.
  apply (canvas_upload_absent_first Sample.accepts_all Sample.roster
           Sample.table [Str "b@x.edu"; Str "a@x.edu"; Str "c@x.edu"]
           (Canvas.Enrolled Sample.alice) Sample.dan).
  - reflexivity.
  - vm_compute. auto.
  - simpl. auto.
  - simpl. intros [H|[H|[H|[]]]]; discriminate H.
Defined.

Lemma canvas_upload_by_respondents_witness :
  Canvas.canvas_upload Sample.accepts_all Sample.roster Sample.table
                       Canvas.empty_world
  = Canvas.canvas_upload Sample.accepts_all Sample.roster
      (with_rows Sample.table (rev (rows Sample.table))) Canvas.empty_world.
Proof.
  apply (canvas_upload_by_respondents Sample.accepts_all Sample.roster
           Sample.table (with_rows Sample.table (rev (rows Sample.table)))
           [Str "b@x.edu"; Str "a@x.edu"; Str "c@x.edu"]
           [Str "c@x.edu"; Str "a@x.edu"; Str "b@x.edu"]).
  - reflexivity.
  - reflexivity.
  - intros c. simpl. tauto.
Defined.

Lemma canvas_upload_enrolled_witness :
  exists cs,
    Canvas.canvas_upload Sample.accepts_all Sample.roster Sample.table
                         Canvas.empty_world
    = (Ok tt, add_calls cs Canvas.empty_world)
    /\ Permutation (map fst (List.filter enrolled_call cs))
                   (map Canvas.Enrolled Sample.roster)
    /\ (forall u score,
           In (Canvas.Enrolled u, score) cs ->
           (score = 1%Z
            /\ In (Str (Canvas.login_id u))
                  [Str "b@x.edu"; Str "a@x.edu"; Str "c@x.edu"])
           \/ (score = 0%Z
               /\ ~ In (Str (Canvas.login_id u))
                       [Str "b@x.edu"; Str "a@x.edu"; Str "c@x.edu"]))
    /\ (length Sample.roster <= length cs <= S (length Sample.roster))%nat.
Proof.
  apply (canvas_upload_enrolled Sample.accepts_all Sample.roster Sample.table
           [Str "b@x.edu"; Str "a@x.edu"; Str "c@x.edu"] Canvas.empty_world).
  - reflexivity.
  - discriminate.
  - intros log c _. reflexivity.
Defined.

(** ** More on the run *)

Lemma mapM_Forall {A B} (f : A -> result B) (P : B -> Prop)
      (l : list A) (l' : list B) :
  (forall x y, In x l -> f x = Ok y -> P y) ->
  mapM f l = Ok l' -> Forall P l'.
Proof.
  revert l'. induction l as [|x l IH]; simpl; intros l' HP.
  - intros [= <-]. constructor.
  - destruct (f x) as [y|e] eqn:Hx; cbn [rbind]; [|discriminate].
    destruct (mapM f l) as [ys|e]; cbn [rbind]; [|discriminate].
    intros [= <-]. constructor; [eapply HP; eauto|].
    apply IH; [|reflexivity]. intros x0 y0 H0. apply HP. right. exact H0.
Qed.

Lemma well_formed_filter_by_day
      (to_datetime : string -> option Z) (df out : DataFrame) (date : string) :
  well_formed df ->
  Day.filter_by_day to_datetime df date = Ok out -> well_formed out.
Proof.
  intros [Hd Hr] Hf.
  assert (Hsel : columns out = columns df /\ dtypes out = dtypes df
                 /\ forall r, In r (rows out) -> In r (rows df)).
  { revert Hf. unfold Day.filter_by_day.
    destruct (Day.DatetimeIndex to_datetime df) as [stamps|e]; cbn [rbind];
      [|discriminate].
    destruct (Day.slice_bounds to_datetime date) as [[lo hi]|e]; cbn [rbind];
      [|discriminate].
    destruct (Day.loc_slice lo hi _) as [kept|e] eqn:Hk; cbn [rbind];
      [|discriminate].
    intros [= <-]. cbn [columns dtypes rows].
    split; [reflexivity|]. split; [reflexivity|].
    intros r Hin. apply in_map_iff in Hin. destruct Hin as ([t r'] & <- & Hp).
    apply (proj1 (loc_slice_incl _ _ _ _ Hk)) in Hp.
    apply (Permutation_in _ (sort_index_perm _)) in Hp.
    apply in_combine_r in Hp. exact Hp. }
  destruct Hsel as (Hc & Hdt & Hin). unfold well_formed.
  rewrite Hc, Hdt. split; [exact Hd|].
  apply List.Forall_forall. intros r Hr'.
  rewrite List.Forall_forall in Hr. apply Hr, Hin, Hr'.
Qed.

Lemma well_formed_filter_by_passphrase
      (ratio : string -> string -> Z) (df out : DataFrame)
      (passphrase : string) :
  well_formed df ->
  Passphrase.filter_by_passphrase ratio df passphrase = Ok out ->
  well_formed out.
Proof.
  intros [Hd Hr]. unfold Passphrase.filter_by_passphrase,
    Passphrase.assign_normalized.
  destruct (Frame.position Passphrase.ckey (columns df)) as [i|];
    cbn [of_option rbind]; [|discriminate].
  destruct (mapM _ (rows df)) as [rows'|e] eqn:Hm; cbn [rbind]; [|discriminate].
  cbn [rows columns dtypes]. intros Hout.
  assert (Hcase : out = {| columns := []; dtypes := []; rows := [] |}
                  \/ out = {| columns := columns df;
                              dtypes := <[i := dt_object]> (dtypes df);
                              rows := List.filter
                                        (Passphrase.passes ratio (columns df)
                                                           passphrase)
                                        rows' |})
    by (destruct rows'; injection Hout as <-; auto).
  clear Hout. destruct Hcase as [-> | ->];
    [split; [reflexivity|constructor]|].
  unfold well_formed. cbn [columns dtypes rows].
  split; [rewrite length_insert; exact Hd|].
  assert (Hall : Forall (fun r => length r = length (columns df)) rows').
  { eapply mapM_Forall; [|exact Hm]. intros r r' Hin. cbv beta.
    destruct (nth_error r i) as [c|]; cbn [of_option rbind]; [|discriminate].
    destruct (Passphrase.normalize c) as [c'|]; cbn [rbind]; [|discriminate].
    intros [= <-]. rewrite length_insert.
    rewrite List.Forall_forall in Hr. exact (Hr r Hin). }
  apply List.Forall_forall. intros r Hin. apply filter_In in Hin.
  rewrite List.Forall_forall in Hall. apply Hall, Hin.
Qed.

Lemma well_formed_convert (to_numeric : string -> option Q) (df : DataFrame) :
  well_formed df -> well_formed (Signals.convert_numeric_cols to_numeric df).
Proof.
  intros [Hd Hr]. unfold Signals.convert_numeric_cols.
  destruct (rows df) as [|r0 rs] eqn:Hrows.
  - split; [exact Hd|]. rewrite Hrows. constructor.
  - unfold well_formed. cbn [columns dtypes rows].
    split; [rewrite zip_with_flags_length; exact Hd|].
    apply (Forall_map _ _ (r0 :: rs)).
    eapply List.Forall_impl; [|exact Hr]. intros r Hlen. simpl in Hlen |- *.
    rewrite zip_with_flags_length. exact Hlen.
Qed.

Section MainMore.

Variable to_datetime : string -> option Z.
Variable ratio : string -> string -> Z.
Variable to_numeric : string -> option Q.
Variable fsum : list Q -> Q.
Variable fdiv : Q -> Q -> Q.
Variable provider : list Canvas.call -> Canvas.call -> bool.

(** X24. The validated table is well formed whenever the frame of
    responses is: through normalizing, both filters and the conversion
    every row keeps one cell per column. *)
Theorem validated_well_formed
        (responses table : DataFrame) (q_titles : gmap string string)
        (date keyphrase : string) :
  well_formed responses ->
  validated to_datetime ratio to_numeric responses q_titles date keyphrase
  = Ok table ->
  well_formed table.
Proof.
  intros Hwf. unfold validated.
  destruct (AttendanceForm.get_attendance responses q_titles) as [df1|e] eqn:H1;
    cbn [rbind]; [|discriminate].
  destruct (Day.filter_by_day to_datetime df1 date) as [df2|e] eqn:H2;
    cbn [rbind]; [|discriminate].
  destruct (Passphrase.filter_by_passphrase ratio df2 _) as [df3|e] eqn:H3;
    cbn [rbind]; [|discriminate].
  intros [= <-]. apply well_formed_convert.
  eapply well_formed_filter_by_passphrase; [|exact H3].
  eapply well_formed_filter_by_day; [|exact H2].
  unfold AttendanceForm.get_attendance, AttendanceForm.clean_column_index in H1.
  cbv zeta in H1.
  destruct (mapM AttendanceForm.extract_id _) as [ids|e]; cbn [rbind] in H1;
    [|discriminate].
  destruct (Frame.set_columns _ _) as [df0|e] eqn:H0 in H1; cbn [rbind] in H1;
    [|discriminate].
  apply well_formed_set_columns in H1; [exact H1|].
  apply well_formed_drop.
  apply well_formed_set_columns in H0; [exact H0|].
  apply well_formed_drop, Hwf.
Qed.

(** X25. Once the responses are validated the assistance step cannot
    fail: the detector returns, and the records it lists are records of
    the validated table. *)
Theorem validated_then_identify
        (responses table : DataFrame) (q_titles : gmap string string)
        (date keyphrase : string) :
  validated to_datetime ratio to_numeric responses q_titles date keyphrase
  = Ok table ->
  exists support,
    Signals.identify_assistance_need table = Ok support
    /\ forall r, In r (rows support) -> In r (rows table).
Proof.
  unfold validated.
  destruct (AttendanceForm.get_attendance responses q_titles) as [df1|e];
    cbn [rbind]; [|discriminate].
  destruct (Day.filter_by_day to_datetime df1 date) as [df2|e];
    cbn [rbind]; [|discriminate].
  destruct (Passphrase.filter_by_passphrase ratio df2 _) as [df3|e];
    cbn [rbind]; [|discriminate].
  intros [= <-]. rewrite identify_converted. eexists. split; [reflexivity|].
  cbn [rows]. intros r Hr. apply filter_In in Hr. apply Hr.
Qed.

(** X26. One response whose last-submitted time cannot be parsed ends
    the whole run before anything is written or posted: the run raises
    and leaves no report, no listing, no grade and no table. *)
Theorem main_unparseable_timestamp
        (responses df : DataFrame) (q_titles : gmap string string)
        (uids : list Canvas.profile) (date keyphrase : string)
        (i : nat) (r : list cell) (s : string) (w : Canvas.world) :
  AttendanceForm.get_attendance responses q_titles = Ok df ->
  Frame.position "lastSubmittedTime" (columns df) = Some i ->
  In r (rows df) ->
  nth_error r i = Some (Str s) ->
  to_datetime s = None ->
  exists e,
    main to_datetime ratio to_numeric fsum fdiv provider responses q_titles
         uids date keyphrase w
    = (Raise e, w).
Proof.
  intros Hget Hpos Hin Hcell Hparse.
  assert (Hday : exists e, Day.filter_by_day to_datetime df date = Raise e).
  { unfold Day.filter_by_day, Day.DatetimeIndex. rewrite Hpos.
    cbn [of_option rbind].
    edestruct (mapM_raise
                 (fun r => do c <- of_option KeyError (nth_error r i);
                           Day.stamp_of_cell to_datetime c)
                 (rows df) r ValueError Hin) as [e He].
    - rewrite Hcell. cbn [of_option rbind Day.stamp_of_cell].
      rewrite Hparse. reflexivity.
    - rewrite He. exists e. reflexivity. }
  destruct Hday as [e He]. exists e.
  unfold main, Canvas.mseq at 1, Canvas.lift at 1, validated.
  rewrite Hget. cbn [rbind]. rewrite He. reflexivity.
Qed.

End MainMore.

Lemma validated_well_formed_witness : well_formed Sample.table.
Proof.
  apply (validated_well_formed Iso8601.parse Sample.same_text
           Sample.whole_number Sample.responses Sample.table Sample.q_titles
           "2023-01-10" " Graphs").
  - split; [reflexivity|].
    repeat (apply List.Forall_cons; [reflexivity|]). apply List.Forall_nil.
  - vm_compute. reflexivity.
Defined.

Lemma validated_then_identify_witness :
  exists support,
    Signals.identify_assistance_need Sample.table = Ok support
    /\ forall r, In r (rows support) -> In r (rows Sample.table).
Proof.
  apply (validated_then_identify Iso8601.parse Sample.same_text
           Sample.whole_number Sample.responses Sample.table Sample.q_titles
           "2023-01-10" " Graphs").
  vm_compute. reflexivity.
Defined.

Lemma main_unparseable_timestamp_witness :
  exists e,
    main Iso8601.parse Sample.same_text Sample.whole_number
         Binary64.sum Binary64.div Sample.accepts_all
         {| columns := columns Sample.responses;
            dtypes := dtypes Sample.responses;
            rows := [Sample.submission "r1" "2023-01-10T19:30:00Z" "a@x.edu"
                       "  Graphs " "1";
                     Sample.submission "r5" "yesterday" "e@x.edu" "graphs" "3"] |}
         Sample.q_titles Sample.roster "2023-01-10" "graphs" Canvas.empty_world
    = (Raise e, Canvas.empty_world).
Proof.
  apply (main_unparseable_timestamp Iso8601.parse Sample.same_text
           Sample.whole_number Binary64.sum Binary64.div
           Sample.accepts_all _ Sample.garbled
           Sample.q_titles Sample.roster "2023-01-10" "graphs" 2
           (Sample.record "r5" "yesterday" "e@x.edu" "graphs" "3") "yesterday").
  - vm_compute. reflexivity.
  - reflexivity.
  - simpl. auto.
  - reflexivity.
  - reflexivity.
Defined.

Lemma main_completes_witness :
  main Iso8601.parse Sample.same_text Sample.whole_number
       Binary64.sum Binary64.div Sample.accepts_all
       Sample.responses Sample.q_titles Sample.roster "2023-01-10" " Graphs"
       Canvas.empty_world
  = (Ok tt,
     {| Canvas.calls :=
          upload_calls Sample.roster
                       [Str "b@x.edu"; Str "a@x.edu"; Str "c@x.edu"];
        Canvas.printed := Some [Str "a@x.edu"];
        Canvas.report_csv :=
          Some (Signals.report Binary64.sum Binary64.div Sample.table);
        Canvas.out_csv := Some Sample.table |}).
Proof.
  apply (main_completes Sample.accepts_all Iso8601.parse Sample.same_text
           Sample.whole_number Binary64.sum Binary64.div
           Sample.responses Sample.q_titles Sample.roster
           "2023-01-10" " Graphs" Sample.table
           {| columns := columns Sample.table;
              dtypes := dtypes Sample.table;
              rows := [[Str "r1"; Str "2023-01-10T19:30:00Z";
                        Str "2023-01-10T19:30:00Z"; Str "a@x.edu";
                        Str "graphs"; Num 1]] |}
           [Str "a@x.edu"]
           [Str "b@x.edu"; Str "a@x.edu"; Str "c@x.edu"]).
  - vm_compute. reflexivity.
  - vm_compute. reflexivity.
  - reflexivity.
  - reflexivity.
  - discriminate.
  - intros log c _. reflexivity.
Defined.

(** A day without a response in the window: the validated frame has no
    column, the report is written empty, and the run raises [KeyError]
    at the listing, before any call of the upload. *)
Example sample_main_no_response :
  validated Iso8601.parse Sample.same_text Sample.whole_number
            Sample.responses Sample.q_titles "2023-01-12" " Graphs"
  = Ok {| columns := []; dtypes := []; rows := [] |}
  /\ main Iso8601.parse Sample.same_text Sample.whole_number
          Binary64.sum Binary64.div Sample.accepts_all
          Sample.responses Sample.q_titles Sample.roster "2023-01-12"
          " Graphs" Canvas.empty_world
     = (Raise KeyError,
        {| Canvas.calls := [];
           Canvas.printed := None;
           Canvas.report_csv := Some [];
           Canvas.out_csv := None |}).
Proof. split; vm_compute; reflexivity. Qed.

(** ** The further properties at the sample run *)

Lemma get_question_ids_raises_witness :
  FormBody.get_question_ids
    [SampleForm.concept; SampleForm.header; SampleForm.understanding]
  = Raise KeyError.
Proof.
  apply (proj2 (get_question_ids_raises
                  [SampleForm.concept; SampleForm.header;
                   SampleForm.understanding])).
  exists SampleForm.header. split; [simpl; auto | left; reflexivity].
Defined.

Lemma get_question_ids_lookup_witness :
  exists q,
    FormBody.get_question_ids SampleForm.items = Ok q
    /\ forall i t,
         q !! i = Some t
         <-> In {| FormBody.title := Some t; FormBody.questionId := Some i |}
                SampleForm.items.
Proof.
  apply (get_question_ids_lookup SampleForm.items).
  - repeat (apply List.Forall_cons; [split; discriminate|]).
    apply List.Forall_nil.
  - repeat (apply List.NoDup_cons;
            [simpl; intros H; repeat (destruct H as [H|H]; [discriminate H|]);
             exact H|]).
    apply List.NoDup_nil.
Defined.

Example sample_get_question_ids :
  FormBody.get_question_ids SampleForm.items = Ok Sample.q_titles.
Proof. vm_compute. reflexivity. Qed.

Lemma get_attendance_body_raises_witness :
  FormBody.get_attendance Sample.responses
    [SampleForm.concept; SampleForm.header; SampleForm.understanding]
  = Raise KeyError.
Proof.
  apply (get_attendance_body_raises Sample.responses
           [SampleForm.concept; SampleForm.header; SampleForm.understanding]
           ({| columns :=
                 Sample.meta ++ ["1a"; "2b"; "3c"];
               dtypes := repeat dt_object 7;
               rows := map (fun r => Frame.select
                                       [true; true; true; true; false; true;
                                        false; true; false; true] r)
                           (rows Sample.responses) |},
            ["1a"; "2b"; "3c"])
           SampleForm.header).
  - vm_compute. reflexivity.
  - simpl. auto.
  - reflexivity.
Defined.
